(** * trading_bot.py: signed requests and the order workflow

    A shallow embedding of [src/trading_bot.py] (the Binance Futures testnet
    bot) and the properties of its natural-language specification.

    Layout:
    - [Py]       the fragment of the Python runtime the program touches:
                 [str] as a sequence of bytes, [float], JSON-like values,
                 insertion-ordered [dict], truthiness, [str()];
    - [Urllib]   [urllib.parse.urlencode(..., doseq=True)];
    - [Hashlib]  SHA-256, HMAC and [hexdigest];
    - [Os], [Dotenv]  [os.environ] and [load_dotenv()];
    - [World]    what the program runs in: the heap of [dict] objects, the
                 clock, the exchange, the trace of observable events, and
                 the monad of state and exceptions over them;
    - the program: [BinanceFuturesREST], [TradingBot], [parse_args],
                 [main];
    - the vocabulary of the statements and the sample inputs;
    - the lemmas and the theorems, claim by claim. *)

From Stdlib Require Import ZArith NArith List String Ascii Bool Lia.
From Stdlib Require Import DecimalString.
Import ListNotations.

Local Open Scope string_scope.
Local Open Scope Z_scope.

(* ================================================================= *)
(** ** The Python runtime, as far as the program uses it *)

Module Py.

(** A [str] is kept as the sequence of its UTF-8 bytes: [encode("utf-8")]
    is then the identity on the representation. *)

Definition encode_utf8 (s : string) : list Byte.byte := list_byte_of_string s.

Definition is_lower (c : ascii) : bool :=
  (97 <=? N_of_ascii c)%N && (N_of_ascii c <=? 122)%N.

Definition upper_char (c : ascii) : ascii :=
  if is_lower c then ascii_of_N (N_of_ascii c - 32) else c.

(** [s.upper()].  Letters a-z are mapped to A-Z; every other byte is left
    as it is (the model covers ASCII text, such as exchange symbols). *)
Fixpoint upper (s : string) : string :=
  match s with
  | EmptyString => EmptyString
  | String c r => String (upper_char c) (upper r)
  end.

(** [s.rstrip(c)]: drops every trailing occurrence of [c]. *)
Fixpoint rstrip (c : ascii) (s : string) : string :=
  match s with
  | EmptyString => EmptyString
  | String a r =>
      match rstrip c r with
      | EmptyString => if Ascii.eqb a c then EmptyString else String a EmptyString
      | r' => String a r'
      end
  end.

Fixpoint join (sep : string) (l : list string) : string :=
  match l with
  | [] => ""
  | [x] => x
  | x :: r => x ++ sep ++ join sep r
  end.

Fixpoint repeat_char (c : ascii) (n : nat) : string :=
  match n with
  | O => EmptyString
  | S k => String c (repeat_char c k)
  end.

Fixpoint contains_char (c : ascii) (s : string) : bool :=
  match s with
  | EmptyString => false
  | String a r => Ascii.eqb a c || contains_char c r
  end.

Definition str_of_N (n : N) : string := NilEmpty.string_of_uint (N.to_uint n).

(** [str(z)] for an [int]. *)
Definition str_of_int (z : Z) : string :=
  match z with
  | Z0 => "0"
  | Zpos p => str_of_N (Npos p)
  | Zneg p => "-" ++ str_of_N (Npos p)
  end.

(** *** float

    The program never computes with floats: it receives them from the
    command line or from a JSON body, tests their truthiness, and prints
    them.  A float is therefore kept as the decimal number its shortest
    [repr] denotes: sign, digits and a power of ten. *)
Inductive pyfloat : Type :=
| FNan
| FInf (neg : bool)
| FDec (neg : bool) (mant : N) (exp : Z).   (* (-1)^neg * mant * 10^exp *)

(** [bool(x)]: only the two zeros are falsy. *)
Definition float_bool (f : pyfloat) : bool :=
  match f with
  | FDec _ 0%N _ => false
  | _ => true
  end.

(** [x <= 0] *)
Definition float_le0 (f : pyfloat) : bool :=
  match f with
  | FNan => false
  | FInf neg => neg
  | FDec neg m _ => neg || (m =? 0)%N
  end.

Definition two_digits (n : N) : string :=
  if (n <? 10)%N then "0" ++ str_of_N n else str_of_N n.

(** [repr] of a float, after [float_repr] (format code 'r', with ".0"
    added to integral values): exponent notation when the decimal point
    lies at [<= -4] or [> 16]. *)
Definition float_str (f : pyfloat) : string :=
  match f with
  | FNan => "nan"
  | FInf neg => if neg then "-inf" else "inf"
  | FDec neg m e =>
      let sign := if neg then "-" else "" in
      match m with
      | 0%N => sign ++ "0.0"
      | _ =>
          let ds0 := str_of_N m in
          let ds := rstrip "0"%char ds0 in
          let n := Z.of_nat (String.length ds) in
          let decpt := Z.of_nat (String.length ds0) + e in
          if (decpt <=? -4) || (16 <? decpt) then
            let x := decpt - 1 in
            let frac := match ds with
                        | String d EmptyString => String d EmptyString
                        | String d r => String d ("." ++ r)
                        | EmptyString => EmptyString
                        end in
            sign ++ frac ++ "e" ++ (if x <? 0 then "-" else "+")
                 ++ two_digits (Z.abs_N x)
          else if decpt <=? 0 then
            sign ++ "0." ++ repeat_char "0" (Z.to_nat (- decpt)) ++ ds
          else if n <=? decpt then
            sign ++ ds ++ repeat_char "0" (Z.to_nat (decpt - n)) ++ ".0"
          else
            sign ++ substring 0 (Z.to_nat decpt) ds ++ "."
                 ++ substring (Z.to_nat decpt)
                              (String.length ds - Z.to_nat decpt) ds
      end
  end.

(** *** Values: what a parameter or a JSON body can hold *)
#[warnings="-register-all"] Inductive pyval : Type :=
| VNone
| VBool (b : bool)
| VInt (z : Z)
| VFloat (f : pyfloat)
| VStr (s : string)
| VList (l : list pyval)
| VDict (d : list (string * pyval)).

(** A [dict] with [str] keys, in insertion order. *)
Definition dict : Type := list (string * pyval).

Fixpoint dict_get (k : string) (d : dict) : option pyval :=
  match d with
  | [] => None
  | (k', v) :: r => if String.eqb k k' then Some v else dict_get k r
  end.

(** [d[k] = v]: an existing key keeps its place, a new key goes last. *)
Fixpoint dict_set (k : string) (v : pyval) (d : dict) : dict :=
  match d with
  | [] => [(k, v)]
  | (k', v') :: r =>
      if String.eqb k k' then (k', v) :: r else (k', v') :: dict_set k v r
  end.

Definition keys (d : dict) : list string := map fst d.

(** [bool(v)] *)
Definition truthy (v : pyval) : bool :=
  match v with
  | VNone => false
  | VBool b => b
  | VInt z => negb (z =? 0)
  | VFloat f => float_bool f
  | VStr s => negb (String.eqb s "")
  | VList l => match l with [] => false | _ => true end
  | VDict d => match d with [] => false | _ => true end
  end.

Definition hex_digit (n : N) : ascii :=
  if (n <? 10)%N then ascii_of_N (48 + n) else ascii_of_N (87 + n).

Definition backslash : ascii := ascii_of_N 92.
Definition dquote : ascii := ascii_of_N 34.

(** [repr] of a [str]: quotes, backslash escapes, [\xNN] for control
    bytes; bytes of non-ASCII characters are kept. *)
Fixpoint repr_body (q : ascii) (s : string) : string :=
  match s with
  | EmptyString => EmptyString
  | String c r =>
      let n := N_of_ascii c in
      let rest := repr_body q r in
      if Ascii.eqb c backslash then String backslash (String backslash rest)
      else if Ascii.eqb c q then String backslash (String c rest)
      else if (n =? 9)%N then "\t" ++ rest
      else if (n =? 10)%N then "\n" ++ rest
      else if (n =? 13)%N then "\r" ++ rest
      else if (n <? 32)%N || (n =? 127)%N then
        "\x" ++ String (hex_digit (n / 16)) (String (hex_digit (n mod 16)) rest)
      else String c rest
  end.

Definition repr_str (s : string) : string :=
  let q := if contains_char "'"%char s && negb (contains_char dquote s)
           then dquote else "'"%char in
  String q (repr_body q s ++ String q EmptyString).

Fixpoint repr (v : pyval) : string :=
  match v with
  | VNone => "None"
  | VBool b => if b then "True" else "False"
  | VInt z => str_of_int z
  | VFloat f => float_str f
  | VStr s => repr_str s
  | VList l => "[" ++ join ", " (map repr l) ++ "]"
  | VDict d =>
      "{" ++ join ", " (map (fun kv => repr_str (fst kv) ++ ": " ++ repr (snd kv)) d)
          ++ "}"
  end.

(** [str(v)] *)
Definition str (v : pyval) : string :=
  match v with
  | VStr s => s
  | _ => repr v
  end.

End Py.

(* ================================================================= *)
(** ** urllib.parse *)

Module Urllib.
Import Py.

(** Bytes [quote] never escapes: letters, digits and [_.-~]. *)
Definition always_safe (c : ascii) : bool :=
  let n := N_of_ascii c in
  ((65 <=? n) && (n <=? 90) || (97 <=? n) && (n <=? 122)
   || (48 <=? n) && (n <=? 57)
   || (n =? 95) || (n =? 46) || (n =? 45) || (n =? 126))%N.

Definition hex_upper (n : N) : ascii :=
  if (n <? 10)%N then ascii_of_N (48 + n) else ascii_of_N (55 + n).

(** [quote_plus(s)] with the default [safe='']: a space becomes [+], any
    other byte outside the safe set becomes [%XX]. *)
Fixpoint quote_plus (s : string) : string :=
  match s with
  | EmptyString => EmptyString
  | String c r =>
      let n := N_of_ascii c in
      if always_safe c then String c (quote_plus r)
      else if Ascii.eqb c " "%char then String "+"%char (quote_plus r)
      else String "%"%char
             (String (hex_upper (n / 16)) (String (hex_upper (n mod 16)) (quote_plus r)))
  end.

(** The [key=value] items one entry contributes under [doseq=True]: a
    [str] gives one item; a value with a length (a list, or a dict, which
    iterates over its keys) gives one item per element; anything else is
    passed through [str()]. *)
Definition items_of (k : string) (v : pyval) : list string :=
  let qk := quote_plus k in
  match v with
  | VStr s => [qk ++ "=" ++ quote_plus s]
  | VList l => map (fun elt => qk ++ "=" ++ quote_plus (str elt)) l
  | VDict d => map (fun kv => qk ++ "=" ++ quote_plus (fst kv)) d
  | _ => [qk ++ "=" ++ quote_plus (str v)]
  end.

(** [urlencode(query, doseq=True)] on a dict: entries in insertion order,
    joined by [&]. *)
Definition urlencode (query : dict) : string :=
  join "&" (flat_map (fun kv => items_of (fst kv) (snd kv)) query).

End Urllib.

(* ================================================================= *)
(** ** hashlib and hmac *)

Module Hashlib.
Local Open Scope list_scope.

Definition bytes : Type := list Byte.byte.

Definition Z_of_byte (b : Byte.byte) : Z := Z.of_N (Byte.to_N b).

Definition byte_of_Z (z : Z) : Byte.byte :=
  match Byte.of_N (Z.to_N (z mod 256)) with
  | Some b => b
  | None => Byte.x00
  end.

(** 32-bit words are integers in [0, 2^32). *)
Definition mask32 : Z := 0xFFFFFFFF.
Definition add32 (x y : Z) : Z := (x + y) mod 2 ^ 32.
Definition rotr (n x : Z) : Z :=
  Z.lor (Z.shiftr x n) (Z.land (Z.shiftl x (32 - n)) mask32).
Definition Ch (x y z : Z) : Z :=
  Z.lxor (Z.land x y) (Z.land (Z.lxor x mask32) z).
Definition Maj (x y z : Z) : Z :=
  Z.lxor (Z.lxor (Z.land x y) (Z.land x z)) (Z.land y z).
Definition bsig0 (x : Z) : Z := Z.lxor (Z.lxor (rotr 2 x) (rotr 13 x)) (rotr 22 x).
Definition bsig1 (x : Z) : Z := Z.lxor (Z.lxor (rotr 6 x) (rotr 11 x)) (rotr 25 x).
Definition ssig0 (x : Z) : Z := Z.lxor (Z.lxor (rotr 7 x) (rotr 18 x)) (Z.shiftr x 3).
Definition ssig1 (x : Z) : Z := Z.lxor (Z.lxor (rotr 17 x) (rotr 19 x)) (Z.shiftr x 10).

(** The constants are taken from their definition (FIPS 180-4, 4.2.2 and
    5.3.3): the first 32 bits of the fractional parts of the cube roots of
    the first 64 primes, and of the square roots of the first 8. *)
Definition is_prime (n : Z) : bool :=
  (1 <? n)
  && forallb (fun d => negb (n mod d =? 0))
             (map Z.of_nat (seq 2 (Z.to_nat n - 2))).

Definition primes64 : list Z :=
  firstn 64 (filter is_prime (map Z.of_nat (seq 2 310))).

(** The integer cube root, bit by bit from bit [bits - 1] down. *)
Fixpoint cube_root (bits : nat) (n r : Z) : Z :=
  match bits with
  | O => r
  | S k =>
      let c := r + 2 ^ Z.of_nat k in
      cube_root k n (if c * c * c <=? n then c else r)
  end.

Definition K256 : list Z :=
  map (fun p => cube_root 40 (p * 2 ^ 96) 0 mod 2 ^ 32) primes64.

Definition init256 : list Z :=
  map (fun p => Z.sqrt (p * 2 ^ 64) mod 2 ^ 32) (firstn 8 primes64).

(** The [n] low bytes of [x], most significant first. *)
Definition be_bytes (n : nat) (x : Z) : list Z :=
  map (fun i => Z.shiftr x (8 * Z.of_nat i) mod 256) (rev (seq 0 n)).

(** Message padding: a 1 bit, zeros, and the bit length on 64 bits, up to
    a multiple of 64 bytes. *)
Definition pad (msg : list Z) : list Z :=
  let l := Z.of_nat (List.length msg) in
  msg ++ [0x80] ++ repeat 0 (Z.to_nat ((55 - l) mod 64)) ++ be_bytes 8 (8 * l).

Fixpoint be_words (l : list Z) : list Z :=
  match l with
  | a :: b :: c :: d :: r => (((a * 256 + b) * 256 + c) * 256 + d) :: be_words r
  | _ => []
  end.

(** Message schedule: [n] more words after the ones in [w]. *)
Fixpoint extend (n : nat) (w : list Z) : list Z :=
  match n with
  | O => w
  | S k =>
      let t := List.length w in
      let x := add32 (add32 (ssig1 (nth (t - 2) w 0)) (nth (t - 7) w 0))
                     (add32 (ssig0 (nth (t - 15) w 0)) (nth (t - 16) w 0)) in
      extend k (w ++ [x])
  end.

Definition round (s : list Z) (kw : Z * Z) : list Z :=
  match s with
  | [a; b; c; d; e; f; g; h] =>
      let t1 := add32 (add32 (add32 h (bsig1 e)) (Ch e f g))
                      (add32 (fst kw) (snd kw)) in
      let t2 := add32 (bsig0 a) (Maj a b c) in
      [add32 t1 t2; a; b; c; add32 d t1; e; f; g]
  | _ => s
  end.

Definition compress (h : list Z) (block : list Z) : list Z :=
  let w := extend 48 (be_words block) in
  map (fun p => add32 (fst p) (snd p))
      (combine h (fold_left round (combine K256 w) h)).

(** Folds [compress] over the 64-byte blocks of [l]; [fuel] bounds their
    number. *)
Fixpoint blocks (fuel : nat) (h : list Z) (l : list Z) : list Z :=
  match fuel, l with
  | S k, _ :: _ => blocks k (compress h (firstn 64 l)) (skipn 64 l)
  | _, _ => h
  end.

Definition sha256_Z (msg : list Z) : list Z :=
  let p := pad msg in
  flat_map (be_bytes 4) (blocks (List.length p) init256 p).

Definition sha256 (msg : bytes) : bytes :=
  map byte_of_Z (sha256_Z (map Z_of_byte msg)).

(** [hmac.new(key, msg, hashlib.sha256).digest()] (RFC 2104, block size
    64): a key longer than a block is hashed first, then padded with
    zeros. *)
Definition hmac_sha256 (key msg : bytes) : bytes :=
  let k := map Z_of_byte key in
  let k := if (64 <? List.length k)%nat then sha256_Z k else k in
  let k := k ++ repeat 0 (64 - List.length k) in
  let ikey := map (Z.lxor 0x36) k in
  let okey := map (Z.lxor 0x5c) k in
  map byte_of_Z (sha256_Z (okey ++ sha256_Z (ikey ++ map Z_of_byte msg))).

(** [.hexdigest()]: two lowercase hexadecimal digits per byte. *)
Definition hexdigest (d : bytes) : string :=
  fold_right (fun b s =>
                let n := Byte.to_N b in
                String (Py.hex_digit (n / 16)) (String (Py.hex_digit (n mod 16)) s))
             EmptyString d.

End Hashlib.

(* ================================================================= *)
(** ** os.environ and python-dotenv *)

Module Os.

(** [os.environ]: variable names to values. *)
Definition environ : Type := list (string * string).

Fixpoint getenv (k : string) (env : environ) : option string :=
  match env with
  | [] => None
  | (k', v) :: r => if String.eqb k k' then Some v else getenv k r
  end.

Definition mem (k : string) (env : environ) : bool :=
  match getenv k env with Some _ => true | None => false end.

Fixpoint setenv (k v : string) (env : environ) : environ :=
  match env with
  | [] => [(k, v)]
  | (k', v') :: r =>
      if String.eqb k k' then (k', v) :: r else (k', v') :: setenv k v r
  end.

End Os.

Module Dotenv.

(** The bindings of a [.env] file, as [dotenv_values] reads them; a name
    given without [=] has no value. *)
Definition bindings : Type := list (string * option string).

(** [set_as_environment_variables]: a name already in [os.environ] is
    skipped unless [override] is set; a binding without value is skipped. *)
Definition set_as_environment_variables
    (override : bool) (b : bindings) (env : Os.environ) : Os.environ :=
  fold_left
    (fun env kv =>
       if Os.mem (fst kv) env && negb override then env
       else match snd kv with
            | Some v => Os.setenv (fst kv) v env
            | None => env
            end)
    b env.

(** [load_dotenv(override=...)]: [file] is the [.env] file found from
    the working directory, if there is one. *)
Definition load_dotenv (override : bool) (file : option bindings)
    (env : Os.environ) : Os.environ :=
  match file with
  | Some b => set_as_environment_variables override b env
  | None => env
  end.

End Dotenv.

(* ================================================================= *)
(** ** The world the program runs in *)

Module World.
Import Py.

Inductive verb : Type := GET | POST.

(** What [session.get] / [session.post] put on the wire: the verb, the
    URL, the session's [X-MBX-APIKEY] header and the query parameters. *)
Record http_request : Type := {
  req_verb : verb;
  req_url : string;
  req_api_key : string;
  req_params : dict
}.

(** What comes back: no response at all (connection error, timeout), or a
    status code with the body text and, when the text is JSON, its value. *)
Inductive http_reply : Type :=
| NoReply (why : string)
| Reply (status_code : Z) (text : string) (json : option pyval).

Inductive exn : Type :=
| SystemExit (code : Z)              (* argparse rejects the command line *)
| ConnectionError (why : string)     (* requests: no response *)
| HTTPError (status_code : Z)        (* requests: raise_for_status *)
| JSONDecodeError (text : string)    (* requests: r.json() on a body that is not JSON *)
| AttributeError (attr : string)     (* [.get] on a value that is not a dict *)
| InvalidReference.                  (* model only: a reference to no object *)

(** Subclasses of [requests.RequestException] (the error of [r.json()]
    is one since requests 2.27). *)
Definition is_RequestException (e : exn) : bool :=
  match e with
  | ConnectionError _ | HTTPError _ | JSONDecodeError _ => true
  | _ => false
  end.

(** Subclasses of [Exception] ([SystemExit] is not one). *)
Definition is_Exception (e : exn) : bool :=
  match e with
  | SystemExit _ => false
  | _ => true
  end.

Inductive level : Type := DEBUG | INFO | WARNING | ERROR.

(** The log records of the program, one constructor per format string. *)
Inductive message : Type :=
| MsgInitialized (base_url : string)    (* TradingBot initialized (base_url=%s) *)
| MsgRequest (method url : string) (params : dict)   (* REQUEST %s %s params=%s *)
| MsgResponse (status_code : Z) (text : string)      (* RESPONSE %s: %s *)
| MsgRequestFailed (e : exn)            (* HTTP request failed: %s *)
| MsgNoCredentials                      (* API key and secret must be provided *)
| MsgLimitNeedsPrice                    (* LIMIT order requires --price *)
| MsgStopNeedsPrices                    (* STOP order requires --stop-price and --price *)
| MsgUnsupportedType (type : string)    (* Unsupported order type: %s *)
| MsgOrderFailed (e : exn).             (* Order failed: %s *)

Inductive output : Type :=
| OutHeader                     (* ----- ORDER RESULT ----- *)
| OutResult (result : pyval)
| OutStatus (status : pyval).   (* Order Status: ... *)

Inductive event : Type :=
| Log (l : level) (m : message)
| Http (r : http_request)
| Stdout (o : output).

(** The surroundings, which the program only reads: the clock (the value
    of [int(time.time() * 1000)] at the n-th reading), the exchange (its
    reply to the n-th request), and the [.env] file. *)
Record host : Type := {
  clock : nat -> Z;
  exchange : nat -> http_request -> http_reply;
  dotenv_file : option Dotenv.bindings
}.

Definition loc : Type := nat.

(** What the program changes: the [dict] objects it holds references to,
    [os.environ], how often the clock and the exchange were used, and the
    events so far (oldest first). *)
Record world : Type := {
  heap : list dict;
  environ : Os.environ;
  ticks : nat;
  sent : nat;
  trace : list event
}.

Definition with_heap (h : list dict) (w : world) : world :=
  {| heap := h; environ := environ w; ticks := ticks w; sent := sent w;
     trace := trace w |}.
Definition with_environ (e : Os.environ) (w : world) : world :=
  {| heap := heap w; environ := e; ticks := ticks w; sent := sent w;
     trace := trace w |}.
Definition tick (w : world) : world :=
  {| heap := heap w; environ := environ w; ticks := S (ticks w); sent := sent w;
     trace := trace w |}.
Definition count_sent (w : world) : world :=
  {| heap := heap w; environ := environ w; ticks := ticks w; sent := S (sent w);
     trace := trace w |}.
Definition emit (ev : event) (w : world) : world :=
  {| heap := heap w; environ := environ w; ticks := ticks w; sent := sent w;
     trace := trace w ++ [ev] |}.

(** [h[l] := d] when [l] is allocated. *)
Fixpoint update (l : loc) (d : dict) (h : list dict) : list dict :=
  match h, l with
  | [], _ => []
  | _ :: r, O => d :: r
  | x :: r, S k => x :: update k d r
  end.

(** *** Computations: state, and exceptions *)

Inductive result (A : Type) : Type :=
| Ok (a : A)
| Raise (e : exn).
Arguments Ok {A} a.
Arguments Raise {A} e.

Definition M (A : Type) : Type := host -> world -> result A * world.

Definition ret {A} (a : A) : M A := fun _ w => (Ok a, w).

Definition bind {A B} (c : M A) (k : A -> M B) : M B :=
  fun h w =>
    match c h w with
    | (Ok a, w') => k a h w'
    | (Raise e, w') => (Raise e, w')
    end.

Definition raise {A} (e : exn) : M A := fun _ w => (Raise e, w).

(** [try: c except: handler] *)
Definition try_except {A} (c : M A) (handler : exn -> M A) : M A :=
  fun h w =>
    match c h w with
    | (Ok a, w') => (Ok a, w')
    | (Raise e, w') => handler e h w'
    end.

Definition modify (f : world -> world) : M unit := fun _ w => (Ok tt, f w).

Definition log (l : level) (m : message) : M unit := modify (emit (Log l m)).
Definition print (o : output) : M unit := modify (emit (Stdout o)).

(** A new dict object. *)
Definition alloc (d : dict) : M loc :=
  fun _ w => (Ok (List.length (heap w)), with_heap (heap w ++ [d]) w).

Definition load (l : loc) : M dict :=
  fun _ w =>
    match nth_error (heap w) l with
    | Some d => (Ok d, w)
    | None => (Raise InvalidReference, w)
    end.

(** [p[k] = v] on the object [p] refers to. *)
Definition setitem (l : loc) (k : string) (v : pyval) : M unit :=
  fun _ w =>
    match nth_error (heap w) l with
    | Some d => (Ok tt, with_heap (update l (dict_set k v d) (heap w)) w)
    | None => (Raise InvalidReference, w)
    end.

(** [int(time.time() * 1000)] *)
Definition time_ms : M Z :=
  fun h w => (Ok (clock h (ticks w)), tick w).

Definition getenv (k : string) : M (option string) :=
  fun _ w => (Ok (Os.getenv k (environ w)), w).

(** One round trip to the exchange. *)
Definition send (r : http_request) : M (Z * string * option pyval) :=
  fun h w =>
    let w' := count_sent (emit (Http r) w) in
    match exchange h (sent w) r with
    | NoReply why => (Raise (ConnectionError why), w')
    | Reply st text js => (Ok (st, text, js), w')
    end.

End World.

Declare Scope py_scope.
Delimit Scope py_scope with py.
Notation "x <- c ;; k" := (World.bind c (fun x => k))
  (at level 61, c at next level, right associativity) : py_scope.
Notation "c ;; k" := (World.bind c (fun _ => k))
  (at level 61, right associativity) : py_scope.

(* ================================================================= *)
(** ** The program *)

Import Py World.
Local Open Scope py_scope.

Definition TESTNET_BASE : string := "https://testnet.binancefuture.com".

(** Module level: [load_dotenv()], with its default [override=False]. *)
Definition module_init : M unit :=
  fun h w =>
    (Ok tt, with_environ (Dotenv.load_dotenv false (dotenv_file h) (environ w)) w).

(** *** class BinanceFuturesREST *)
Module BinanceFuturesREST.

Record t : Type := {
  api_key : string;
  api_secret : Hashlib.bytes;
  base_url : string
}.

Definition __init__ (api_key api_secret base_url : string) : t :=
  {| api_key := api_key;
     api_secret := encode_utf8 api_secret;
     base_url := rstrip "/" base_url |}.

Definition _sign (self : t) (params : dict) : string :=
  let query := Urllib.urlencode params in
  Hashlib.hexdigest (Hashlib.hmac_sha256 (api_secret self) (encode_utf8 query)).

(** [session.get(url, params=params, timeout=10)] and [session.post]: the
    parameters are read from the object [params] refers to. *)
Definition session_call (self : t) (v : verb) (url : string) (params : loc)
  : M (Z * string * option pyval) :=
  d <- load params ;;
  send {| req_verb := v; req_url := url; req_api_key := api_key self;
          req_params := d |}.

(** [r.raise_for_status()] *)
Definition raise_for_status (status_code : Z) : M unit :=
  if (400 <=? status_code) && (status_code <? 600)
  then raise (HTTPError status_code) else ret tt.

(** [r.json()] *)
Definition json (text : string) (js : option pyval) : M pyval :=
  match js with
  | Some v => ret v
  | None => raise (JSONDecodeError text)
  end.

(** The [try] statement of [_request]: the round trip, with the logging
    of requests, responses and failures. *)
Definition attempt (self : t) (method url : string) (p : loc) : M pyval :=
  try_except
    (d <- load p ;;
     log DEBUG (MsgRequest method url d) ;;
     r <- (if String.eqb (upper method) "GET"
           then session_call self GET url p
           else session_call self POST url p) ;;
     let '(status_code, text, js) := r in
     log DEBUG (MsgResponse status_code text) ;;
     raise_for_status status_code ;;
     json text js)
    (fun e =>
       if is_RequestException e
       then log ERROR (MsgRequestFailed e) ;; raise e
       else raise e).

(** [params] is a reference to the caller's dict, or [None]. *)
Definition _request (self : t) (method path : string) (params : option loc)
    (signed : bool) : M pyval :=
  let url := base_url self ++ path in
  (* params = params or {} *)
  p <- match params with
       | Some l => d <- load l ;; if truthy (VDict d) then ret l else alloc []
       | None => alloc []
       end ;;
  (if signed then
     now <- time_ms ;;
     setitem p "timestamp" (VInt now) ;;
     d <- load p ;;
     setitem p "signature" (VStr (_sign self d))
   else ret tt) ;;
  attempt self method url p.

(** [place_order]: its keyword arguments arrive in a dict of their own,
    whatever the caller built them from. *)
Definition place_order (self : t) (params : dict) : M pyval :=
  p <- alloc params ;;
  _request self "POST" "/fapi/v1/order" (Some p) true.

Definition get_order (self : t) (symbol : string) (orderId : pyval) : M pyval :=
  p <- alloc [("symbol", VStr (upper symbol)); ("orderId", orderId)] ;;
  _request self "GET" "/fapi/v1/order" (Some p) true.

End BinanceFuturesREST.

(** *** class TradingBot *)
Module TradingBot.

Record t : Type := { client : BinanceFuturesREST.t }.

Definition __init__ (api_key api_secret base_url : string) : M t :=
  let self := {| client := BinanceFuturesREST.__init__ api_key api_secret base_url |} in
  log INFO (MsgInitialized base_url) ;;
  ret self.

Definition place_market_order (self : t) (symbol side : string)
    (quantity : pyfloat) : M pyval :=
  BinanceFuturesREST.place_order (client self)
    [("symbol", VStr (upper symbol)); ("side", VStr (upper side));
     ("type", VStr "MARKET"); ("quantity", VFloat quantity)].

Definition place_limit_order (self : t) (symbol side : string)
    (quantity price : pyfloat) (tif : string) : M pyval :=
  BinanceFuturesREST.place_order (client self)
    [("symbol", VStr (upper symbol)); ("side", VStr (upper side));
     ("type", VStr "LIMIT"); ("quantity", VFloat quantity);
     ("price", VFloat price); ("timeInForce", VStr tif)].

Definition place_stop_order (self : t) (symbol side : string)
    (quantity stop_price limit_price : pyfloat) (tif : string) : M pyval :=
  BinanceFuturesREST.place_order (client self)
    [("symbol", VStr (upper symbol)); ("side", VStr (upper side));
     ("type", VStr "STOP"); ("quantity", VFloat quantity);
     ("stopPrice", VFloat stop_price); ("price", VFloat limit_price);
     ("timeInForce", VStr tif)].

End TradingBot.

(** *** The command line *)

(** What was given for each option ([None]: the option is absent);
    numbers are given as the floats their text denotes. *)
Record CommandLine : Type := {
  opt_api_key : option string;
  opt_api_secret : option string;
  opt_base_url : option string;
  opt_symbol : option string;
  opt_side : option string;
  opt_type : option string;
  opt_quantity : option pyfloat;
  opt_price : option pyfloat;
  opt_stop_price : option pyfloat;
  opt_time_in_force : option string
}.

(** The namespace [parse_args] returns. *)
Module Args.
Record t : Type := {
  api_key : option string;
  api_secret : option string;
  base_url : string;
  symbol : string;
  side : string;
  type : string;
  quantity : pyfloat;
  price : option pyfloat;
  stop_price : option pyfloat;
  time_in_force : string
}.
End Args.

Definition one_of (choices : list string) (s : string) : bool :=
  existsb (String.eqb s) choices.

Definition default {A} (d : A) (o : option A) : A :=
  match o with Some a => a | None => d end.

(** [parse_args]: required options must be present, options with
    [choices] must hold one of them, the others fall back to their
    default; otherwise argparse exits with status 2. *)
Definition parse_args (cl : CommandLine) : M Args.t :=
  match opt_symbol cl, opt_side cl, opt_type cl, opt_quantity cl with
  | Some symbol, Some side, Some type, Some quantity =>
      if one_of ["BUY"; "SELL"] side && one_of ["MARKET"; "LIMIT"; "STOP"] type
         && one_of ["GTC"; "IOC"; "FOK"] (default "GTC" (opt_time_in_force cl))
      then ret {| Args.api_key := opt_api_key cl;
                  Args.api_secret := opt_api_secret cl;
                  Args.base_url := default TESTNET_BASE (opt_base_url cl);
                  Args.symbol := symbol;
                  Args.side := side;
                  Args.type := type;
                  Args.quantity := quantity;
                  Args.price := opt_price cl;
                  Args.stop_price := opt_stop_price cl;
                  Args.time_in_force := default "GTC" (opt_time_in_force cl) |}
      else raise (SystemExit 2)
  | _, _, _, _ => raise (SystemExit 2)
  end.

(** *** main *)

(** [a or b] on optional strings: [a] when it is truthy, else [b]. *)
Definition or_else (a b : option string) : option string :=
  match a with
  | Some s => if String.eqb s "" then b else a
  | None => b
  end.

(** [not x] on an optional string. *)
Definition not_str (a : option string) : bool :=
  match a with
  | Some s => String.eqb s ""
  | None => true
  end.

(** [not x] on an optional float: absent, or zero. *)
Definition not_float (a : option pyfloat) : bool :=
  match a with
  | Some f => negb (float_bool f)
  | None => true
  end.

(** [isinstance(result, dict) and result.get("orderId")], as a truth
    value. *)
Definition has_orderId (result : pyval) : bool :=
  match result with
  | VDict d => match dict_get "orderId" d with
               | Some v => truthy v
               | None => false
               end
  | _ => false
  end.

(** [v[k]] on a dict known to hold [k]. *)
Definition getitem (k : string) (v : pyval) : pyval :=
  match v with
  | VDict d => default VNone (dict_get k d)
  | _ => VNone
  end.

(** [v.get(k)]: only a dict has the method. *)
Definition get_method (k : string) (v : pyval) : M pyval :=
  match v with
  | VDict d => ret (default VNone (dict_get k d))
  | _ => raise (AttributeError "get")
  end.

(** The choice of the order call in [main]; [None] stands for an early
    [return].  Past their [not_float] test the optional prices are
    present, and [default] only unwraps them. *)
Definition place (bot : TradingBot.t) (args : Args.t) : M (option pyval) :=
  if String.eqb (Args.type args) "MARKET" then
    result <- TradingBot.place_market_order bot (Args.symbol args)
                (Args.side args) (Args.quantity args) ;;
    ret (Some result)
  else if String.eqb (Args.type args) "LIMIT" then
    if not_float (Args.price args) then
      log ERROR MsgLimitNeedsPrice ;; ret None
    else
      result <- TradingBot.place_limit_order bot (Args.symbol args)
                  (Args.side args) (Args.quantity args)
                  (default FNan (Args.price args)) (Args.time_in_force args) ;;
      ret (Some result)
  else if String.eqb (Args.type args) "STOP" then
    if not_float (Args.stop_price args) || not_float (Args.price args) then
      log ERROR MsgStopNeedsPrices ;; ret None
    else
      result <- TradingBot.place_stop_order bot (Args.symbol args)
                  (Args.side args) (Args.quantity args)
                  (default FNan (Args.stop_price args))
                  (default FNan (Args.price args)) (Args.time_in_force args) ;;
      ret (Some result)
  else
    log ERROR (MsgUnsupportedType (Args.type args)) ;; ret None.

(** The status call of [main] and the printing of its answer. *)
Definition confirm (bot : TradingBot.t) (args : Args.t) (result : pyval) : M unit :=
  status <- BinanceFuturesREST.get_order (TradingBot.client bot)
              (Args.symbol args) (getitem "orderId" result) ;;
  s <- get_method "status" status ;;
  print (OutStatus s).

(** What [main] does with the result of the placement. *)
Definition report (bot : TradingBot.t) (args : Args.t) (result : pyval) : M unit :=
  print OutHeader ;;
  print (OutResult result) ;;
  if has_orderId result then confirm bot args result else ret tt.

(** The [try] statement of [main]. *)
Definition order_workflow (bot : TradingBot.t) (args : Args.t) : M unit :=
  try_except
    (r <- place bot args ;;
     match r with
     | Some result => report bot args result
     | None => ret tt
     end)
    (fun e =>
       if is_Exception e then log ERROR (MsgOrderFailed e) else raise e).

Definition main (cl : CommandLine) : M unit :=
  args <- parse_args cl ;;
  env_key <- getenv "BINANCE_API_KEY" ;;
  env_secret <- getenv "BINANCE_API_SECRET" ;;
  let api_key := or_else (Args.api_key args) env_key in
  let api_secret := or_else (Args.api_secret args) env_secret in
  if not_str api_key || not_str api_secret then
    log ERROR MsgNoCredentials
  else
    bot <- TradingBot.__init__ (default "" api_key) (default "" api_secret)
             (Args.base_url args) ;;
    order_workflow bot args.

(** The script: the module is loaded, then [main()] runs. *)
Definition script (cl : CommandLine) : M unit :=
  module_init ;; main cl.

(** *** Logging setup

    Module level: the logger lets every level through ([setLevel(DEBUG)]);
    the console handler takes INFO and above, the rotating file handler
    DEBUG and above. *)
Definition levelno (l : level) : Z :=
  match l with
  | DEBUG => 10
  | INFO => 20
  | WARNING => 30
  | ERROR => 40
  end.

Definition logger_level : level := DEBUG.
Definition ch_level : level := INFO.
Definition fh_level : level := DEBUG.

(** A handler emits a record when the logger and the handler both let
    its level through. *)
Definition emits_record (handler_level : level) (ev : event) : bool :=
  match ev with
  | Log l _ => (levelno logger_level <=? levelno l) && (levelno handler_level <=? levelno l)
  | _ => false
  end.

(** What the console handler and the file handler write, of a trace. *)
Definition console (tr : list event) : list event := filter (emits_record ch_level) tr.
Definition log_file (tr : list event) : list event := filter (emits_record fh_level) tr.

(* ================================================================= *)
(** ** Vocabulary of the statements, and sample surroundings

    The functions below describe, in closed form, what the program is
    proved to do; the hosts, worlds and command lines are the concrete
    inputs of the examples. *)

Import BinanceFuturesREST.
Import TradingBot.

(** The mapping a signed request ends up with: the timestamp is set
    first, the signature of the result is set next. *)
Definition signed_params (self : BinanceFuturesREST.t) (now : Z) (d : dict) : dict :=
  let d1 := dict_set "timestamp" (VInt now) d in
  dict_set "signature" (VStr (_sign self d1)) d1.

Definition wire_verb (method : string) : verb :=
  if String.eqb (upper method) "GET" then GET else POST.

(** What [_request] returns or raises for a reply. *)
Definition reply_result (rep : http_reply) : result pyval :=
  match rep with
  | NoReply why => Raise (ConnectionError why)
  | Reply st text js =>
      if (400 <=? st) && (st <? 600) then Raise (HTTPError st)
      else match js with
           | Some v => Ok v
           | None => Raise (JSONDecodeError text)
           end
  end.

(** What [_request] logs for a reply. *)
Definition reply_events (rep : http_reply) : list event :=
  match rep with
  | NoReply why => [Log ERROR (MsgRequestFailed (ConnectionError why))]
  | Reply st text js =>
      Log DEBUG (MsgResponse st text)
      :: match reply_result rep with
         | Raise e => [Log ERROR (MsgRequestFailed e)]
         | Ok _ => []
         end
  end.

(** The requests among some events, in order. *)
Definition requests_of (evs : list event) : list http_request :=
  flat_map (fun ev => match ev with Http r => [r] | _ => [] end) evs.

Definition is_GET (r : http_request) : bool :=
  match req_verb r with GET => true | POST => false end.

(** The dict a signed request works on: the caller's, or an empty one. *)
Definition submitted (params : option loc) (w : world) : option dict :=
  match params with
  | Some l => nth_error (heap w) l
  | None => Some []
  end.

(** The request a client sends for a method, a path and parameters. *)
Definition request_for (self : BinanceFuturesREST.t) (method path : string)
    (d : dict) : http_request :=
  {| req_verb := wire_verb method; req_url := base_url self ++ path;
     req_api_key := api_key self; req_params := d |}.

(** What a signed request on a new dict holding [d] does, as a whole. *)
Definition signed_call (self : BinanceFuturesREST.t) (method path : string)
    (d : dict) (h : host) (w : world) : result pyval * world :=
  let full := signed_params self (clock h (ticks w)) d in
  let r := request_for self method path full in
  let rep := exchange h (sent w) r in
  (reply_result rep,
   {| heap := (heap w ++ [full])%list; environ := environ w;
      ticks := S (ticks w); sent := S (sent w);
      trace := (trace w ++ Log DEBUG (MsgRequest method (base_url self ++ path) full)
                        :: Http r :: reply_events rep)%list |}).

(** A clock stopped at 1700000000000 ms and an exchange that accepts
    everything: an order id for a POST, a status for a GET. *)
Definition calm_host : host :=
  {| clock := fun _ => 1700000000000;
     exchange := fun _ r =>
       match req_verb r with
       | POST => Reply 200 "{...}" (Some (VDict [("orderId", VInt 12345)]))
       | GET => Reply 200 "{...}" (Some (VDict [("status", VStr "NEW")]))
       end;
     dotenv_file := None |}.

Definition empty_world : world :=
  {| heap := []; environ := []; ticks := 0; sent := 0; trace := [] |}.

(** A world in which the caller holds one dict. *)
Definition world_with (d : dict) : world :=
  {| heap := [d]; environ := []; ticks := 0; sent := 0; trace := [] |}.

Definition sample_client : BinanceFuturesREST.t :=
  BinanceFuturesREST.__init__ "key" "secret" TESTNET_BASE.

Definition signature_of (r : http_request) : option pyval :=
  dict_get "signature" (req_params r).

(** [c] run from [w] adds events to the trace, of which the requests are
    [rs]. *)
Definition sends {A} (c : M A) (h : host) (w : world) (rs : list http_request) : Prop :=
  exists evs, trace (snd (c h w)) = (trace w ++ evs)%list /\ requests_of evs = rs.

Definition market_params (symbol side : string) (quantity : pyfloat) : dict :=
  [("symbol", VStr (upper symbol)); ("side", VStr (upper side));
   ("type", VStr "MARKET"); ("quantity", VFloat quantity)].

Definition limit_params (symbol side : string) (quantity price : pyfloat)
    (tif : string) : dict :=
  [("symbol", VStr (upper symbol)); ("side", VStr (upper side));
   ("type", VStr "LIMIT"); ("quantity", VFloat quantity);
   ("price", VFloat price); ("timeInForce", VStr tif)].

Definition stop_params (symbol side : string) (quantity stop_price limit_price : pyfloat)
    (tif : string) : dict :=
  [("symbol", VStr (upper symbol)); ("side", VStr (upper side));
   ("type", VStr "STOP"); ("quantity", VFloat quantity);
   ("stopPrice", VFloat stop_price); ("price", VFloat limit_price);
   ("timeInForce", VStr tif)].

Definition sample_bot : TradingBot.t := {| client := sample_client |}.

(** The parameters [main] places an order with, when its checks pass. *)
Definition order_params (args : Args.t) : option dict :=
  if String.eqb (Args.type args) "MARKET" then
    Some (market_params (Args.symbol args) (Args.side args) (Args.quantity args))
  else if String.eqb (Args.type args) "LIMIT" then
    match Args.price args with
    | Some p =>
        if float_bool p
        then Some (limit_params (Args.symbol args) (Args.side args)
                     (Args.quantity args) p (Args.time_in_force args))
        else None
    | None => None
    end
  else if String.eqb (Args.type args) "STOP" then
    match Args.stop_price args, Args.price args with
    | Some sp, Some p =>
        if float_bool sp && float_bool p
        then Some (stop_params (Args.symbol args) (Args.side args)
                     (Args.quantity args) sp p (Args.time_in_force args))
        else None
    | _, _ => None
    end
  else None.

(** What [main] logs when it places no order. *)
Definition refusal (args : Args.t) : message :=
  if String.eqb (Args.type args) "LIMIT" then MsgLimitNeedsPrice
  else if String.eqb (Args.type args) "STOP" then MsgStopNeedsPrices
  else MsgUnsupportedType (Args.type args).

Definition optional {A} (r : result A) : result (option A) :=
  match r with
  | Ok a => Ok (Some a)
  | Raise e => Raise e
  end.

(** The credentials [main] settles on: the command line first, then the
    environment; an empty string counts as absent. *)
Definition credentials (args : Args.t) (env : Os.environ) : option (string * string) :=
  match or_else (Args.api_key args) (Os.getenv "BINANCE_API_KEY" env),
        or_else (Args.api_secret args) (Os.getenv "BINANCE_API_SECRET" env) with
  | Some k, Some s =>
      if String.eqb k "" || String.eqb s "" then None else Some (k, s)
  | _, _ => None
  end.

Definition bot_for (ks : string * string) (args : Args.t) : TradingBot.t :=
  {| client := BinanceFuturesREST.__init__ (fst ks) (snd ks) (Args.base_url args) |}.

Definition market_args : Args.t :=
  {| Args.api_key := Some "key"; Args.api_secret := Some "secret";
     Args.base_url := TESTNET_BASE; Args.symbol := "BTCUSDT"; Args.side := "BUY";
     Args.type := "MARKET"; Args.quantity := FDec false 1 (-2);
     Args.price := None; Args.stop_price := None; Args.time_in_force := "GTC" |}.

(** The events of one signed request on a new dict holding [d]. *)
Definition call_events (self : BinanceFuturesREST.t) (method path : string)
    (d : dict) (h : host) (w : world) : list event :=
  let full := signed_params self (clock h (ticks w)) d in
  let r := request_for self method path full in
  Log DEBUG (MsgRequest method (base_url self ++ path) full)
  :: Http r :: reply_events (exchange h (sent w) r).

(** The parameters of the status call for a result. *)
Definition status_params (args : Args.t) (result : pyval) : dict :=
  [("symbol", VStr (upper (Args.symbol args)));
   ("orderId", getitem "orderId" result)].

(** The events after a placement that returned [result], from the world
    [w1] it left. *)
Definition report_events (bot : TradingBot.t) (args : Args.t) (result : pyval)
    (h : host) (w1 : world) : list event :=
  [Stdout OutHeader; Stdout (OutResult result)]
  ++ (if has_orderId result then
        let w2 := emit (Stdout (OutResult result)) (emit (Stdout OutHeader) w1) in
        call_events (client bot) "GET" "/fapi/v1/order" (status_params args result) h w2
        ++ match fst (signed_call (client bot) "GET" "/fapi/v1/order"
                        (status_params args result) h w2) with
           | Ok (VDict s) => [Stdout (OutStatus (default VNone (dict_get "status" s)))]
           | Ok _ => [Log ERROR (MsgOrderFailed (AttributeError "get"))]
           | Raise e => [Log ERROR (MsgOrderFailed e)]
           end
      else [])%list.

(** The events of the [try] statement of [main]. *)
Definition workflow_events (bot : TradingBot.t) (args : Args.t)
    (h : host) (w : world) : list event :=
  match order_params args with
  | None => [Log ERROR (refusal args)]
  | Some d =>
      (call_events (client bot) "POST" "/fapi/v1/order" d h w
       ++ match fst (signed_call (client bot) "POST" "/fapi/v1/order" d h w) with
          | Raise e => [Log ERROR (MsgOrderFailed e)]
          | Ok result =>
              report_events bot args result h
                (snd (signed_call (client bot) "POST" "/fapi/v1/order" d h w))
          end)%list
  end.

Definition quoted (s : string) : string := String dquote (s ++ String dquote "").

(** An exchange that answers the order with [{"orderId": 0}]. *)
Definition zero_id_host : host :=
  {| clock := fun _ => 1700000000000;
     exchange := fun _ _ =>
       Reply 200 ("{" ++ quoted "orderId" ++ ": 0}")
             (Some (VDict [("orderId", VInt 0)]));
     dotenv_file := None |}.

Definition limit_without_price : CommandLine :=
  {| opt_api_key := Some "key"; opt_api_secret := Some "secret";
     opt_base_url := None; opt_symbol := Some "BTCUSDT"; opt_side := Some "SELL";
     opt_type := Some "LIMIT"; opt_quantity := Some (FDec false 5 (-1));
     opt_price := None; opt_stop_price := None; opt_time_in_force := None |}.

Definition limit_without_price_args : Args.t :=
  {| Args.api_key := Some "key"; Args.api_secret := Some "secret";
     Args.base_url := TESTNET_BASE; Args.symbol := "BTCUSDT"; Args.side := "SELL";
     Args.type := "LIMIT"; Args.quantity := FDec false 5 (-1);
     Args.price := None; Args.stop_price := None; Args.time_in_force := "GTC" |}.

Definition is_warning (ev : event) : bool :=
  match ev with
  | Log WARNING _ => true
  | _ => false
  end.

(** An exchange that takes the order and refuses the status call. *)
Definition no_status_host : host :=
  {| clock := fun _ => 1700000000000;
     exchange := fun _ r =>
       match req_verb r with
       | POST => Reply 200 ("{" ++ quoted "orderId" ++ ": 12345}")
                       (Some (VDict [("orderId", VInt 12345)]))
       | GET => Reply 400 "Bad Request" None
       end;
     dotenv_file := None |}.

(** An exchange that refuses everything. *)
Definition refusing_host : host :=
  {| clock := fun _ => 1700000000000;
     exchange := fun _ _ => Reply 400 "Bad Request" None;
     dotenv_file := None |}.

Definition negative_quantity : CommandLine :=
  {| opt_api_key := Some "key"; opt_api_secret := Some "secret";
     opt_base_url := None; opt_symbol := Some "BTCUSDT"; opt_side := Some "BUY";
     opt_type := Some "MARKET"; opt_quantity := Some (FDec true 1 0);
     opt_price := None; opt_stop_price := None; opt_time_in_force := None |}.

Definition negative_quantity_args : Args.t :=
  {| Args.api_key := Some "key"; Args.api_secret := Some "secret";
     Args.base_url := TESTNET_BASE; Args.symbol := "BTCUSDT"; Args.side := "BUY";
     Args.type := "MARKET"; Args.quantity := FDec true 1 0;
     Args.price := None; Args.stop_price := None; Args.time_in_force := "GTC" |}.

Definition market_without_keys : CommandLine :=
  {| opt_api_key := None; opt_api_secret := None;
     opt_base_url := None; opt_symbol := Some "BTCUSDT"; opt_side := Some "BUY";
     opt_type := Some "MARKET"; opt_quantity := Some (FDec false 1 (-2));
     opt_price := None; opt_stop_price := None; opt_time_in_force := None |}.

(** The [.env] file holds one pair of credentials. *)
Definition host_with_dotenv : host :=
  {| clock := fun _ => 1700000000000;
     exchange := fun _ _ => Reply 400 "Bad Request" None;
     dotenv_file := Some [("BINANCE_API_KEY", Some "filekey");
                          ("BINANCE_API_SECRET", Some "filesecret")] |}.

(** The process environment holds another. *)
Definition world_with_environ : world :=
  {| heap := [];
     environ := [("BINANCE_API_KEY", "envkey"); ("BINANCE_API_SECRET", "envsecret")];
     ticks := 0; sent := 0; trace := [] |}.

(** [s.endswith(c)] *)
Fixpoint ends_with (c : ascii) (s : string) : bool :=
  match s with
  | EmptyString => false
  | String a EmptyString => Ascii.eqb a c
  | String _ r => ends_with c r
  end.

(** A lowercase hexadecimal digit. *)
Definition is_hex_digit (c : ascii) : bool :=
  let n := N_of_ascii c in
  ((48 <=? n) && (n <=? 57) || (97 <=? n) && (n <=? 102))%N.

(** The events of [main] on the namespace [args]. *)
Definition main_events (args : Args.t) (h : host) (w : world) : list event :=
  match credentials args (environ w) with
  | Some ks =>
      Log INFO (MsgInitialized (Args.base_url args))
      :: workflow_events (bot_for ks args) args h
           (emit (Log INFO (MsgInitialized (Args.base_url args))) w)
  | None => [Log ERROR MsgNoCredentials]
  end.

(** The events of the requests and of the report: everything [main] can
    add to the trace past the start of the bot, but the refusal of an
    order. *)
Definition routine (ev : event) : bool :=
  match ev with
  | Log DEBUG (MsgRequest _ _ _) | Log DEBUG (MsgResponse _ _) => true
  | Log ERROR (MsgRequestFailed _) | Log ERROR (MsgOrderFailed _) => true
  | Http _ | Stdout _ => true
  | _ => false
  end.

(** The records that show parameters or response bodies. *)
Definition shows_traffic (ev : event) : bool :=
  match ev with
  | Log _ (MsgRequest _ _ _) | Log _ (MsgResponse _ _) => true
  | _ => false
  end.

Definition is_log (ev : event) : bool :=
  match ev with
  | Log _ _ => true
  | _ => false
  end.

Definition is_unsupported (ev : event) : bool :=
  match ev with
  | Log _ (MsgUnsupportedType _) => true
  | _ => false
  end.

(** An option that is absent or empty. *)
Definition blank (o : option string) : Prop := o = None \/ o = Some "".

(** Sample command line and surroundings: a LIMIT order at price zero. *)
Definition limit_at_zero : CommandLine :=
  {| opt_api_key := Some "key"; opt_api_secret := Some "secret";
     opt_base_url := None; opt_symbol := Some "BTCUSDT"; opt_side := Some "SELL";
     opt_type := Some "LIMIT"; opt_quantity := Some (FDec false 5 (-1));
     opt_price := Some (FDec false 0 0); opt_stop_price := None;
     opt_time_in_force := None |}.

Definition limit_at_zero_args : Args.t :=
  {| Args.api_key := Some "key"; Args.api_secret := Some "secret";
     Args.base_url := TESTNET_BASE; Args.symbol := "BTCUSDT"; Args.side := "SELL";
     Args.type := "LIMIT"; Args.quantity := FDec false 5 (-1);
     Args.price := Some (FDec false 0 0); Args.stop_price := None;
     Args.time_in_force := "GTC" |}.

Definition market_cl : CommandLine :=
  {| opt_api_key := Some "key"; opt_api_secret := Some "secret";
     opt_base_url := None; opt_symbol := Some "BTCUSDT"; opt_side := Some "BUY";
     opt_type := Some "MARKET"; opt_quantity := Some (FDec false 1 (-2));
     opt_price := None; opt_stop_price := None; opt_time_in_force := None |}.

Definition market_without_keys_args : Args.t :=
  {| Args.api_key := None; Args.api_secret := None;
     Args.base_url := TESTNET_BASE; Args.symbol := "BTCUSDT"; Args.side := "BUY";
     Args.type := "MARKET"; Args.quantity := FDec false 1 (-2);
     Args.price := None; Args.stop_price := None; Args.time_in_force := "GTC" |}.

(** An exchange whose status reply is a dict without a status. *)
Definition silent_status_host : host :=
  {| clock := fun _ => 1700000000000;
     exchange := fun _ r =>
       match req_verb r with
       | POST => Reply 200 "{...}" (Some (VDict [("orderId", VInt 12345)]))
       | GET => Reply 200 "{}" (Some (VDict []))
       end;
     dotenv_file := None |}.

(** Sample command line: a LIMIT order at a negative price. *)
Definition limit_below_zero : CommandLine :=
  {| opt_api_key := Some "key"; opt_api_secret := Some "secret";
     opt_base_url := None; opt_symbol := Some "BTCUSDT"; opt_side := Some "SELL";
     opt_type := Some "LIMIT"; opt_quantity := Some (FDec false 5 (-1));
     opt_price := Some (FDec true 25 2); opt_stop_price := None;
     opt_time_in_force := Some "IOC" |}.

Definition limit_below_zero_args : Args.t :=
  {| Args.api_key := Some "key"; Args.api_secret := Some "secret";
     Args.base_url := TESTNET_BASE; Args.symbol := "BTCUSDT"; Args.side := "SELL";
     Args.type := "LIMIT"; Args.quantity := FDec false 5 (-1);
     Args.price := Some (FDec true 25 2); Args.stop_price := None;
     Args.time_in_force := "IOC" |}.

(* ================================================================= *)
(** ** The runtime model on known values *)

Example sha256_abc :
  Hashlib.hexdigest (Hashlib.sha256 (encode_utf8 "abc"))
  = "ba7816bf8f01cfea414140de5dae2223b00361a396177a9cb410ff61f20015ad".
Proof. vm_compute. reflexivity. Qed.

Example sha256_empty :
  Hashlib.hexdigest (Hashlib.sha256 [])
  = "e3b0c44298fc1c149afbf4c8996fb92427ae41e4649b934ca495991b7852b855".
Proof. vm_compute. reflexivity. Qed.

(** The signed request of the exchange's API documentation. *)
Example hmac_documented_request :
  Hashlib.hexdigest
    (Hashlib.hmac_sha256
       (encode_utf8 "2b5eb11e18796d12d88f13dc27dbbd02c2cc51ff7059765ed9821957d82bb4d9")
       (encode_utf8 "symbol=BTCUSDT&side=BUY&type=LIMIT&quantity=1&price=9000&timeInForce=GTC&recvWindow=5000&timestamp=1591702613943"))
  = "3c661234138461fcc7a7d8746c6558c9842d4e10870d2ecbedf7777cad694af9".
Proof. vm_compute. reflexivity. Qed.

Example float_str_values :
  map float_str
      [FDec false 1 (-2); FDec false 25 2; FDec true 125 (-1); FDec false 1 (-5);
       FDec false 1 16; FDec false 1 15; FDec true 0 0; FInf false; FNan]
  = ["0.01"; "2500.0"; "-12.5"; "1e-05"; "1e+16"; "1000000000000000.0"; "-0.0";
     "inf"; "nan"].
Proof. reflexivity. Qed.

Example urlencode_values :
  Urllib.urlencode
    [("symbol", VStr "BTC USDT/x"); ("q", VFloat (FDec false 1 (-2)));
     ("l", VList [VInt 1; VStr "a b"; VList [VStr "x"]]);
     ("d", VDict [("k1", VNone); ("k 2", VInt 3)]); ("e", VList []);
     ("n", VNone); ("t~-._*", VBool true)]
  = "symbol=BTC+USDT%2Fx&q=0.01&l=1&l=a+b&l=%5B%27x%27%5D&d=k1&d=k+2&n=None&t~-._%2A=True".
Proof. reflexivity. Qed.

Example rstrip_slashes : rstrip "/" "https://testnet.binancefuture.com//" = TESTNET_BASE.
Proof. reflexivity. Qed.

(* ================================================================= *)
(** ** What one signed request does *)

(** *** dict and heap *)

Lemma dict_get_set_same k v d : dict_get k (dict_set k v d) = Some v.
Proof.
  induction d as [|[k' v'] r IH]; simpl.
  - now rewrite String.eqb_refl.
  - destruct (String.eqb k k') eqn:E; simpl; rewrite E; auto.
Qed.

Lemma dict_get_set_other k k' v d :
  k <> k' -> dict_get k (dict_set k' v d) = dict_get k d.
Proof.
  intros Hne. induction d as [|[k0 v0] r IH]; simpl.
  - destruct (String.eqb k k') eqn:E; auto.
    apply String.eqb_eq in E. contradiction.
  - destruct (String.eqb k' k0) eqn:E; simpl.
    + apply String.eqb_eq in E. subst k0.
      destruct (String.eqb k k') eqn:E'; auto.
      apply String.eqb_eq in E'. contradiction.
    + now rewrite IH.
Qed.

Lemma dict_get_None_notin k d : dict_get k d = None <-> ~ In k (keys d).
Proof.
  induction d as [|[k' v'] r IH]; simpl.
  - tauto.
  - destruct (String.eqb k k') eqn:E.
    + apply String.eqb_eq in E. subst. split; [discriminate | tauto].
    + apply String.eqb_neq in E. rewrite IH. split.
      * intros H [H1 | H1]; [congruence | tauto].
      * tauto.
Qed.

(** A new key goes last. *)
Lemma dict_set_new k v d : dict_get k d = None -> dict_set k v d = (d ++ [(k, v)])%list.
Proof.
  induction d as [|[k' v'] r IH]; simpl; auto.
  destruct (String.eqb k k'); [discriminate|].
  intros H. now rewrite IH.
Qed.

(** Setting a key leaves the keys as they are, or adds the key last. *)
Lemma keys_dict_set k v d :
  keys (dict_set k v d)
  = match dict_get k d with
    | Some _ => keys d
    | None => (keys d ++ [k])%list
    end.
Proof.
  induction d as [|[k' v'] r IH]; simpl; auto.
  destruct (String.eqb k k') eqn:E; simpl; auto.
  rewrite IH. now destruct (dict_get k r).
Qed.

Lemma dict_set_not_nil k v d : dict_set k v d <> [].
Proof. destruct d as [|[k' v'] r]; simpl; [|destruct (String.eqb k k')]; discriminate. Qed.

Lemma nth_error_update_same l d d0 (h : list dict) :
  nth_error h l = Some d0 -> nth_error (update l d h) l = Some d.
Proof.
  revert l. induction h as [|x r IH]; intros [|l]; simpl; try discriminate; auto.
Qed.

Lemma nth_error_update_other l l' d (h : list dict) :
  l <> l' -> nth_error (update l d h) l' = nth_error h l'.
Proof.
  revert l l'. induction h as [|x r IH]; intros [|l] [|l'] Hne; simpl; auto.
  contradiction.
Qed.

Lemma update_update l d d' (h : list dict) :
  update l d' (update l d h) = update l d' h.
Proof.
  revert l. induction h as [|x r IH]; intros [|l]; simpl; auto.
  now rewrite IH.
Qed.

Lemma update_fresh d d' (h : list dict) :
  update (List.length h) d' (h ++ [d]) = (h ++ [d'])%list.
Proof. induction h as [|x r IH]; simpl; auto. now rewrite IH. Qed.

Lemma nth_error_fresh d (h : list dict) :
  nth_error (h ++ [d]) (List.length h) = Some d.
Proof. induction h as [|x r IH]; simpl; auto. Qed.

Lemma length_update l d (h : list dict) : List.length (update l d h) = List.length h.
Proof.
  revert l. induction h as [|x r IH]; intros [|l]; simpl; auto.
Qed.

(** *** The round trip *)

Lemma attempt_run self method url p d h w :
  nth_error (heap w) p = Some d ->
  attempt self method url p h w
  = let r := {| req_verb := wire_verb method; req_url := url;
                req_api_key := api_key self; req_params := d |} in
    let rep := exchange h (sent w) r in
    (reply_result rep,
     {| heap := heap w; environ := environ w; ticks := ticks w;
        sent := S (sent w);
        trace := (trace w ++ Log DEBUG (MsgRequest method url d) :: Http r
                          :: reply_events rep)%list |}).
Proof.
  intros Hp.
  cbv beta iota zeta delta [attempt try_except bind load log modify
    session_call send raise_for_status json ret raise wire_verb emit count_sent].
  simpl. rewrite Hp. simpl.
  destruct (String.eqb (upper method) "GET"); simpl; rewrite Hp; simpl;
    match goal with
    | |- context [exchange h ?n ?r] => destruct (exchange h n r) as [why|st text js]
    end; simpl; try (destruct ((400 <=? st) && (st <? 600)); simpl;
         [|destruct js; simpl]);
    repeat rewrite <- app_assoc; reflexivity.
Qed.

Arguments _sign : simpl never.

(** A signed request on the caller's own, non-empty dict: the dict is
    updated in place, then sent. *)
Lemma request_signed_own self method path l d h w :
  nth_error (heap w) l = Some d ->
  d <> [] ->
  _request self method path (Some l) true h w
  = attempt self method (base_url self ++ path) l h
      {| heap := update l (signed_params self (clock h (ticks w)) d) (heap w);
         environ := environ w; ticks := S (ticks w); sent := sent w;
         trace := trace w |}.
Proof.
  intros Hl Hd.
  cbv beta iota zeta delta [_request bind load ret setitem time_ms tick with_heap].
  simpl. rewrite Hl.
  destruct d as [|kv d']; [contradiction|]. simpl truthy. cbv iota. simpl.
  rewrite Hl. simpl.
  rewrite (nth_error_update_same l _ _ _ Hl). simpl.
  rewrite (nth_error_update_same l _ _ _ Hl).
  rewrite update_update. reflexivity.
Qed.

(** A signed request without a dict, or on an empty one: a new dict is
    made for it. *)
Lemma request_signed_fresh self method path params h w :
  (params = None \/ exists l, params = Some l /\ nth_error (heap w) l = Some []) ->
  _request self method path params true h w
  = attempt self method (base_url self ++ path) (List.length (heap w)) h
      {| heap := (heap w ++ [signed_params self (clock h (ticks w)) []])%list;
         environ := environ w; ticks := S (ticks w); sent := sent w;
         trace := trace w |}.
Proof.
  intros Hp.
  cbv beta iota zeta delta [_request bind load ret setitem time_ms tick with_heap alloc].
  assert (E : forall x : dict, nth_error (heap w ++ [x]) (List.length (heap w)) = Some x)
    by (intros; apply nth_error_fresh).
  destruct Hp as [-> | [l [-> Hl]]]; simpl; [|rewrite Hl; simpl];
    rewrite E; simpl; rewrite update_fresh, E; simpl;
    rewrite E; simpl; rewrite update_fresh; reflexivity.
Qed.

(** An unsigned request leaves every dict as it is. *)
Lemma request_unsigned_own self method path l d h w :
  nth_error (heap w) l = Some d ->
  d <> [] ->
  _request self method path (Some l) false h w
  = attempt self method (base_url self ++ path) l h w.
Proof.
  intros Hl Hd.
  cbv beta iota zeta delta [_request bind load ret].
  rewrite Hl. destruct d as [|kv d']; [contradiction|]. reflexivity.
Qed.

(** A signed request in one step: result, events, clock and counter. *)
Lemma request_signed_run self method path params d h w :
  submitted params w = Some d ->
  let full := signed_params self (clock h (ticks w)) d in
  let r := request_for self method path full in
  let rep := exchange h (sent w) r in
  let out := _request self method path params true h w in
  fst out = reply_result rep
  /\ trace (snd out)
     = (trace w ++ Log DEBUG (MsgRequest method (base_url self ++ path) full)
                :: Http r :: reply_events rep)%list
  /\ ticks (snd out) = S (ticks w)
  /\ sent (snd out) = S (sent w)
  /\ environ (snd out) = environ w.
Proof.
  intros Hs full r rep out. subst out.
  assert (Hcases : (params = None \/ exists l, params = Some l /\ nth_error (heap w) l = Some [])
                   \/ exists l, params = Some l /\ nth_error (heap w) l = Some d /\ d <> []).
  { destruct params as [l|]; simpl in Hs.
    - destruct d as [|kv d'].
      + left. right. eauto.
      + right. exists l. repeat split; auto. discriminate.
    - left. now left. }
  destruct Hcases as [Hfresh | [l [-> [Hl Hd]]]].
  - assert (d = []) as ->.
    { destruct Hfresh as [-> | [l [-> Hl]]]; simpl in Hs; congruence. }
    rewrite (request_signed_fresh _ _ _ _ _ _ Hfresh).
    erewrite attempt_run by (simpl; apply nth_error_fresh).
    simpl. repeat split; reflexivity.
  - rewrite (request_signed_own _ _ _ _ _ _ _ Hl Hd).
    erewrite attempt_run by (simpl; eapply nth_error_update_same; eauto).
    simpl. repeat split; reflexivity.
Qed.

Lemma alloc_then_request self method path d h w :
  d <> [] ->
  (p <- alloc d ;; _request self method path (Some p) true) h w
  = signed_call self method path d h w.
Proof.
  intros Hd. unfold bind at 1, alloc at 1.
  erewrite request_signed_own; [| simpl; apply nth_error_fresh | exact Hd].
  erewrite attempt_run by (simpl; rewrite update_fresh; apply nth_error_fresh).
  simpl. rewrite update_fresh. reflexivity.
Qed.

Lemma place_order_run self d h w :
  d <> [] ->
  place_order self d h w = signed_call self "POST" "/fapi/v1/order" d h w.
Proof. apply alloc_then_request. Qed.

Lemma get_order_run self symbol orderId h w :
  get_order self symbol orderId h w
  = signed_call self "GET" "/fapi/v1/order"
      [("symbol", VStr (upper symbol)); ("orderId", orderId)] h w.
Proof. apply alloc_then_request. discriminate. Qed.

Lemma requests_of_app a b :
  requests_of (a ++ b) = (requests_of a ++ requests_of b)%list.
Proof. apply flat_map_app. Qed.

(** The logging of a reply sends nothing. *)
Lemma requests_of_reply rep : requests_of (reply_events rep) = [].
Proof.
  destruct rep as [why|st text js]; simpl; auto.
  destruct ((400 <=? st) && (st <? 600)); simpl; auto.
  destruct js; reflexivity.
Qed.

(* ================================================================= *)
(** ** The signature (C1, C2) *)

(** C1, amended.  For every mapping submitted as a signed request, the
    request sent carries the mapping with the timestamp (the clock reading,
    in milliseconds) set and then the signature set; the signature is the
    lowercase hexadecimal HMAC-SHA256, keyed by the UTF-8 bytes of the
    secret, of the url-encoded query string of the mapping as it stands
    once the timestamp is set and before the signature is written, entries
    in insertion order (a timestamp that is new comes last).  When the
    mapping holds no signature entry of its own, the signed mapping has no
    signature entry and the signature is appended last. *)
Theorem signed_request_signature key secret base method path params d h w :
  submitted params w = Some d ->
  let self := BinanceFuturesREST.__init__ key secret base in
  let now := clock h (ticks w) in
  let signed := dict_set "timestamp" (VInt now) d in
  let sig := Hashlib.hexdigest
               (Hashlib.hmac_sha256 (encode_utf8 secret)
                  (encode_utf8 (Urllib.urlencode signed))) in
  (exists evs,
     trace (snd (_request self method path params true h w)) = (trace w ++ evs)%list
     /\ requests_of evs
        = [request_for self method path (dict_set "signature" (VStr sig) signed)])
  /\ dict_get "timestamp" signed = Some (VInt now)
  /\ (dict_get "timestamp" d = None -> signed = (d ++ [("timestamp", VInt now)])%list)
  /\ (dict_get "signature" d = None ->
      ~ In "signature" (keys signed)
      /\ dict_set "signature" (VStr sig) signed
         = (signed ++ [("signature", VStr sig)])%list).
Proof.
  intros Hs self now signed sig.
  destruct (request_signed_run self method path params d h w Hs)
    as (_ & Htr & _).
  split; [|split; [|split]].
  - eexists. split; [exact Htr|].
    simpl. rewrite requests_of_reply. reflexivity.
  - apply dict_get_set_same.
  - intros Hts. now apply dict_set_new.
  - intros Hsig.
    assert (Hnone : dict_get "signature" signed = None).
    { subst signed. rewrite dict_get_set_other by discriminate. exact Hsig. }
    split; [now apply dict_get_None_notin | now apply dict_set_new].
Qed.

Lemma signed_request_signature_witness :
  (exists evs,
     trace (snd (_request (BinanceFuturesREST.__init__ "key" "secret" TESTNET_BASE)
                   "POST" "/fapi/v1/order" (Some 0%nat) true calm_host
                   (world_with [("symbol", VStr "BTCUSDT")])))
     = (trace (world_with [("symbol", VStr "BTCUSDT")]) ++ evs)%list
     /\ requests_of evs
        = [request_for (BinanceFuturesREST.__init__ "key" "secret" TESTNET_BASE)
             "POST" "/fapi/v1/order"
             [("symbol", VStr "BTCUSDT"); ("timestamp", VInt 1700000000000);
              ("signature",
               VStr (Hashlib.hexdigest
                       (Hashlib.hmac_sha256 (encode_utf8 "secret")
                          (encode_utf8 "symbol=BTCUSDT&timestamp=1700000000000"))))]]).
Proof.
  exact (proj1 (signed_request_signature "key" "secret" TESTNET_BASE
                  "POST" "/fapi/v1/order" (Some 0%nat)
                  [("symbol", VStr "BTCUSDT")] calm_host
                  (world_with [("symbol", VStr "BTCUSDT")]) eq_refl)).
Defined.

(** C1 as stated fails on a mapping that already holds a signature entry:
    the string that is signed then holds that entry, and the signature
    sent is the HMAC of a string with a signature field in it. *)
Lemma signed_string_holds_submitted_signature :
  Urllib.urlencode
    (dict_set "timestamp" (VInt 1700000000000) [("signature", VStr "stale")])
  = "signature=stale&timestamp=1700000000000"
  /\ requests_of
       (trace (snd (_request sample_client "POST" "/fapi/v1/order" (Some 0%nat) true
                      calm_host (world_with [("signature", VStr "stale")]))))
     = [request_for sample_client "POST" "/fapi/v1/order"
          [("signature",
            VStr (Hashlib.hexdigest
                    (Hashlib.hmac_sha256 (encode_utf8 "secret")
                       (encode_utf8 "signature=stale&timestamp=1700000000000"))));
           ("timestamp", VInt 1700000000000)]].
Proof. split; vm_compute; reflexivity. Qed.

(** C2.  Signing is a function of the secret and of the parameters alone:
    two clients with the same secret give the same mapping the same
    signature, and two signed requests on the same parameters with the same
    clock reading send the same signature, whatever else differs (API key,
    base URL, method, path, exchange, other objects); signing the recorded
    parameters again gives the recorded signature. *)
Theorem sign_deterministic self1 self2 method1 method2 path1 path2
    params1 params2 d h1 h2 w1 w2 :
  api_secret self1 = api_secret self2 ->
  submitted params1 w1 = Some d ->
  submitted params2 w2 = Some d ->
  clock h1 (ticks w1) = clock h2 (ticks w2) ->
  (forall p, _sign self1 p = _sign self2 p)
  /\ exists sig evs1 evs2,
       trace (snd (_request self1 method1 path1 params1 true h1 w1))
       = (trace w1 ++ evs1)%list
       /\ trace (snd (_request self2 method2 path2 params2 true h2 w2))
          = (trace w2 ++ evs2)%list
       /\ map signature_of (requests_of evs1) = [Some (VStr sig)]
       /\ map signature_of (requests_of evs2) = [Some (VStr sig)]
       /\ _sign self2 (dict_set "timestamp" (VInt (clock h1 (ticks w1))) d) = sig.
Proof.
  intros Hsec Hs1 Hs2 Hclk.
  assert (Hsign : forall p, _sign self1 p = _sign self2 p).
  { intros p. unfold _sign. now rewrite Hsec. }
  split; [exact Hsign|].
  destruct (request_signed_run self1 method1 path1 params1 d h1 w1 Hs1)
    as (_ & Htr1 & _).
  destruct (request_signed_run self2 method2 path2 params2 d h2 w2 Hs2)
    as (_ & Htr2 & _).
  exists (_sign self2 (dict_set "timestamp" (VInt (clock h1 (ticks w1))) d)).
  do 2 eexists. split; [exact Htr1|]. split; [exact Htr2|].
  simpl. rewrite !requests_of_reply. simpl.
  unfold signature_of, request_for, signed_params; simpl.
  rewrite !dict_get_set_same, <- Hclk, Hsign. auto.
Qed.

Lemma sign_deterministic_witness :
  _sign (BinanceFuturesREST.__init__ "key" "secret" TESTNET_BASE)
    [("symbol", VStr "BTCUSDT"); ("timestamp", VInt 1700000000000)]
  = _sign (BinanceFuturesREST.__init__ "another key" "secret" "http://localhost/")
      [("symbol", VStr "BTCUSDT"); ("timestamp", VInt 1700000000000)].
Proof.
  exact (proj1 (sign_deterministic
                  (BinanceFuturesREST.__init__ "key" "secret" TESTNET_BASE)
                  (BinanceFuturesREST.__init__ "another key" "secret" "http://localhost/")
                  "POST" "GET" "/fapi/v1/order" "/fapi/v1/order"
                  (Some 0%nat) None [] calm_host calm_host
                  (world_with []) empty_world
                  eq_refl eq_refl eq_refl eq_refl)
               [("symbol", VStr "BTCUSDT"); ("timestamp", VInt 1700000000000)]).
Defined.

(* ================================================================= *)
(** ** Whose mapping is written to (C8) *)

Lemma heap_after_request_own self method path l d h w :
  nth_error (heap w) l = Some d ->
  d <> [] ->
  heap (snd (_request self method path (Some l) true h w))
  = update l (signed_params self (clock h (ticks w)) d) (heap w).
Proof.
  intros Hl Hd. rewrite (request_signed_own _ _ _ _ _ _ _ Hl Hd).
  erewrite attempt_run by (simpl; eapply nth_error_update_same; eauto).
  reflexivity.
Qed.

Lemma heap_after_request_fresh self method path params h w :
  (params = None \/ exists l, params = Some l /\ nth_error (heap w) l = Some []) ->
  heap (snd (_request self method path params true h w))
  = (heap w ++ [signed_params self (clock h (ticks w)) []])%list.
Proof.
  intros Hp. rewrite (request_signed_fresh _ _ _ _ _ _ Hp).
  erewrite attempt_run by (simpl; apply nth_error_fresh).
  reflexivity.
Qed.

Lemma nth_error_old {A} (a b : list A) n :
  (n < List.length a)%nat -> nth_error (a ++ b) n = nth_error a n.
Proof. intros. now apply nth_error_app1. Qed.

(** The dicts that exist when [place_order] is called are not written to. *)
Lemma place_order_frame self kwargs h w l :
  (l < List.length (heap w))%nat ->
  nth_error (heap (snd (place_order self kwargs h w))) l = nth_error (heap w) l.
Proof.
  intros Hlt. destruct kwargs as [|kv r].
  - unfold place_order, bind at 1, alloc at 1.
    rewrite heap_after_request_fresh.
    + simpl. rewrite <- app_assoc. now apply nth_error_old.
    + right. eexists. split; [reflexivity|]. simpl. apply nth_error_fresh.
  - rewrite place_order_run by discriminate. simpl. now apply nth_error_old.
Qed.

Lemma get_order_frame self symbol orderId h w l :
  (l < List.length (heap w))%nat ->
  nth_error (heap (snd (get_order self symbol orderId h w))) l = nth_error (heap w) l.
Proof.
  intros Hlt. rewrite get_order_run. simpl. now apply nth_error_old.
Qed.

(** C8, amended.  A signed request writes the timestamp and the signature
    into the very dict it is handed, when that dict is not empty: no copy
    is made, the caller's dict holds both entries afterwards, and no other
    dict changes.  [place_order] and [get_order] hand [_request] a dict of
    their own making, so no dict that existed before they were called is
    written to. *)
Theorem signed_request_writes_in_place self method path l d h w :
  nth_error (heap w) l = Some d ->
  d <> [] ->
  let w' := snd (_request self method path (Some l) true h w) in
  nth_error (heap w') l = Some (signed_params self (clock h (ticks w)) d)
  /\ dict_get "timestamp" (signed_params self (clock h (ticks w)) d)
     = Some (VInt (clock h (ticks w)))
  /\ (exists sig, dict_get "signature" (signed_params self (clock h (ticks w)) d)
                  = Some (VStr sig))
  /\ List.length (heap w') = List.length (heap w)
  /\ (forall l', l' <> l -> nth_error (heap w') l' = nth_error (heap w) l')
  /\ (forall kwargs l', (l' < List.length (heap w))%nat ->
        nth_error (heap (snd (place_order self kwargs h w))) l' = nth_error (heap w) l')
  /\ (forall symbol orderId l', (l' < List.length (heap w))%nat ->
        nth_error (heap (snd (get_order self symbol orderId h w))) l'
        = nth_error (heap w) l').
Proof.
  intros Hl Hd w'. subst w'.
  rewrite (heap_after_request_own _ _ _ _ _ _ _ Hl Hd).
  split; [eapply nth_error_update_same; eauto|].
  split.
  { unfold signed_params. rewrite dict_get_set_other by discriminate.
    apply dict_get_set_same. }
  split; [eexists; unfold signed_params; apply dict_get_set_same|].
  split; [apply length_update|].
  split; [intros l' Hne; apply nth_error_update_other; congruence|].
  split; intros; [apply place_order_frame | apply get_order_frame]; assumption.
Qed.

Lemma signed_request_writes_in_place_witness :
  nth_error
    (heap (snd (_request sample_client "GET" "/fapi/v1/order" (Some 0%nat) true
                  calm_host (world_with [("symbol", VStr "BTCUSDT")])))) 0
  = Some (signed_params sample_client 1700000000000 [("symbol", VStr "BTCUSDT")]).
Proof.
  exact (proj1 (signed_request_writes_in_place sample_client "GET" "/fapi/v1/order"
                  0%nat [("symbol", VStr "BTCUSDT")] calm_host
                  (world_with [("symbol", VStr "BTCUSDT")]) eq_refl
                  ltac:(discriminate))).
Defined.

(** C8 as stated fails: after a signed request on the caller's dict
    [{"symbol": "BTCUSDT"}], that same dict holds a timestamp and a
    signature, and no second dict exists. *)
Lemma request_changes_the_callers_dict :
  nth_error (heap (world_with [("symbol", VStr "BTCUSDT")])) 0
  = Some [("symbol", VStr "BTCUSDT")]
  /\ option_map keys
       (nth_error
          (heap (snd (_request sample_client "GET" "/fapi/v1/order" (Some 0%nat) true
                        calm_host (world_with [("symbol", VStr "BTCUSDT")])))) 0)
     = Some ["symbol"; "timestamp"; "signature"]
  /\ List.length
       (heap (snd (_request sample_client "GET" "/fapi/v1/order" (Some 0%nat) true
                     calm_host (world_with [("symbol", VStr "BTCUSDT")]))))
     = 1%nat.
Proof. repeat split; vm_compute; reflexivity. Qed.

(* ================================================================= *)
(** ** The order calls of TradingBot (C3, C10) *)

Lemma signed_call_sends self method path d h w :
  exists evs,
    trace (snd (signed_call self method path d h w)) = (trace w ++ evs)%list
    /\ requests_of evs
       = [request_for self method path (signed_params self (clock h (ticks w)) d)].
Proof.
  eexists. split; [reflexivity|]. simpl. now rewrite requests_of_reply.
Qed.

Lemma place_market_order_run bot symbol side quantity h w :
  place_market_order bot symbol side quantity h w
  = signed_call (client bot) "POST" "/fapi/v1/order"
      (market_params symbol side quantity) h w.
Proof. apply place_order_run. discriminate. Qed.

Lemma place_limit_order_run bot symbol side quantity price tif h w :
  place_limit_order bot symbol side quantity price tif h w
  = signed_call (client bot) "POST" "/fapi/v1/order"
      (limit_params symbol side quantity price tif) h w.
Proof. apply place_order_run. discriminate. Qed.

Lemma place_stop_order_run bot symbol side quantity stop_price limit_price tif h w :
  place_stop_order bot symbol side quantity stop_price limit_price tif h w
  = signed_call (client bot) "POST" "/fapi/v1/order"
      (stop_params symbol side quantity stop_price limit_price tif) h w.
Proof. apply place_order_run. discriminate. Qed.







(* ================================================================= *)
(** ** main, step by step *)

Lemma place_run bot args h w :
  place bot args h w
  = match order_params args with
    | Some d =>
        (optional (fst (signed_call (client bot) "POST" "/fapi/v1/order" d h w)),
         snd (signed_call (client bot) "POST" "/fapi/v1/order" d h w))
    | None => (Ok None, emit (Log ERROR (refusal args)) w)
    end.
Proof.
  unfold place, order_params, refusal.
  destruct (String.eqb (Args.type args) "MARKET") eqn:Em.
  { unfold bind. rewrite place_market_order_run.
    simpl. now destruct (reply_result _). }
  destruct (String.eqb (Args.type args) "LIMIT") eqn:El.
  { destruct (Args.price args) as [p|]; simpl; [|reflexivity].
    destruct (float_bool p); simpl; [|reflexivity].
    unfold bind. rewrite place_limit_order_run.
    simpl. now destruct (reply_result _). }
  destruct (String.eqb (Args.type args) "STOP") eqn:Es; [|reflexivity].
  destruct (Args.stop_price args) as [sp|]; simpl; [|reflexivity].
  destruct (float_bool sp); simpl; [|now destruct (Args.price args)].
  destruct (Args.price args) as [p|]; simpl; [|reflexivity].
  destruct (float_bool p); simpl; [|reflexivity].
  unfold bind. rewrite place_stop_order_run.
  simpl. now destruct (reply_result _).
Qed.

(** Every failure of a request is a [RequestException]. *)
Lemma reply_result_raises rep e :
  reply_result rep = Raise e -> is_RequestException e = true.
Proof.
  destruct rep as [why|st text js]; simpl.
  - intros [= <-]. reflexivity.
  - destruct ((400 <=? st) && (st <? 600)); [intros [= <-]; reflexivity|].
    destruct js; [discriminate | intros [= <-]; reflexivity].
Qed.

Lemma request_exception_is_exception e :
  is_RequestException e = true -> is_Exception e = true.
Proof. destruct e; simpl; congruence. Qed.

Lemma report_run bot args result h w :
  report bot args result h w
  = let w1 := emit (Stdout (OutResult result)) (emit (Stdout OutHeader) w) in
    if has_orderId result then confirm bot args result h w1 else (Ok tt, w1).
Proof.
  unfold report, confirm, bind, print, modify. simpl.
  destruct (has_orderId result); reflexivity.
Qed.

Lemma confirm_run bot args result h w :
  confirm bot args result h w
  = let sc := signed_call (client bot) "GET" "/fapi/v1/order"
                [("symbol", VStr (upper (Args.symbol args)));
                 ("orderId", getitem "orderId" result)] h w in
    match fst sc with
    | Ok (VDict s) =>
        (Ok tt, emit (Stdout (OutStatus (default VNone (dict_get "status" s)))) (snd sc))
    | Ok _ => (Raise (AttributeError "get"), snd sc)
    | Raise e => (Raise e, snd sc)
    end.
Proof.
  unfold confirm, bind at 1. rewrite get_order_run.
  unfold signed_call. simpl.
  destruct (reply_result _) as [v|e]; [destruct v|]; reflexivity.
Qed.

(** The whole [try] statement of [main], case by case. *)
Lemma order_workflow_run bot args h w :
  order_workflow bot args h w
  = match order_params args with
    | None => (Ok tt, emit (Log ERROR (refusal args)) w)
    | Some d =>
        let sc := signed_call (client bot) "POST" "/fapi/v1/order" d h w in
        match fst sc with
        | Raise e => (Ok tt, emit (Log ERROR (MsgOrderFailed e)) (snd sc))
        | Ok result =>
            let w1 := emit (Stdout (OutResult result)) (emit (Stdout OutHeader) (snd sc)) in
            if has_orderId result then
              let sc2 := signed_call (client bot) "GET" "/fapi/v1/order"
                           [("symbol", VStr (upper (Args.symbol args)));
                            ("orderId", getitem "orderId" result)] h w1 in
              match fst sc2 with
              | Ok (VDict s) =>
                  (Ok tt,
                   emit (Stdout (OutStatus (default VNone (dict_get "status" s)))) (snd sc2))
              | Ok _ =>
                  (Ok tt, emit (Log ERROR (MsgOrderFailed (AttributeError "get"))) (snd sc2))
              | Raise e => (Ok tt, emit (Log ERROR (MsgOrderFailed e)) (snd sc2))
              end
            else (Ok tt, w1)
        end
    end.
Proof.
  unfold order_workflow, try_except, bind at 1. rewrite place_run.
  destruct (order_params args) as [d|]; [|reflexivity].
  cbv zeta.
  destruct (fst (signed_call (client bot) "POST" "/fapi/v1/order" d h w))
    as [result|e] eqn:E1; simpl optional; cbv iota.
  - rewrite report_run. cbv zeta.
    destruct (has_orderId result); [|reflexivity].
    rewrite confirm_run. cbv zeta.
    match goal with
    | |- context [fst ?sc2] => destruct (fst sc2) as [v|e] eqn:E2
    end.
    + destruct v; reflexivity.
    + simpl in E2. apply reply_result_raises, request_exception_is_exception in E2.
      unfold log, modify. now rewrite E2.
  - simpl in E1. apply reply_result_raises, request_exception_is_exception in E1.
    unfold log, modify. now rewrite E1.
Qed.

Lemma parse_args_pure cl h w r w' : parse_args cl h w = (r, w') -> w' = w.
Proof.
  unfold parse_args.
  destruct (opt_symbol cl), (opt_side cl), (opt_type cl), (opt_quantity cl);
    try (intros [= _ <-]; reflexivity).
  destruct (_ && _); intros [= _ <-]; reflexivity.
Qed.

Lemma main_run cl args h w :
  parse_args cl h w = (Ok args, w) ->
  main cl h w
  = match credentials args (environ w) with
    | Some ks =>
        order_workflow (bot_for ks args) args h
          (emit (Log INFO (MsgInitialized (Args.base_url args))) w)
    | None => (Ok tt, emit (Log ERROR MsgNoCredentials) w)
    end.
Proof.
  intros Hp. unfold main, bind at 1. rewrite Hp.
  unfold bind, getenv, credentials. simpl.
  destruct (or_else (Args.api_key args) _) as [k|]; simpl; [|reflexivity].
  destruct (or_else (Args.api_secret args) _) as [s|]; simpl;
    [|now rewrite orb_true_r].
  destruct (String.eqb k "" || String.eqb s ""); reflexivity.
Qed.

Ltac trace_eq := simpl; repeat rewrite <- app_assoc; simpl; reflexivity.
Ltac requests_simpl :=
  repeat (rewrite ?requests_of_app, ?requests_of_reply; simpl).

Lemma place_sends bot args d h w :
  order_params args = Some d ->
  sends (place bot args) h w
    [request_for (client bot) "POST" "/fapi/v1/order"
       (signed_params (client bot) (clock h (ticks w)) d)].
Proof.
  intros Hd. unfold sends. rewrite place_run, Hd. simpl snd.
  apply signed_call_sends.
Qed.

(** C3.  The order call [main] makes sends one POST whose parameters are,
    before the timestamp and the signature are added: for MARKET, symbol,
    side, type and quantity only (no price, no timeInForce); for LIMIT,
    these and price and timeInForce; for STOP, these and stopPrice, price
    (the limit price) and timeInForce. *)
Theorem order_kind_selects_parameters bot args h w :
  let c := client bot in
  let now := clock h (ticks w) in
  let symbol := VStr (upper (Args.symbol args)) in
  let side := VStr (upper (Args.side args)) in
  let quantity := VFloat (Args.quantity args) in
  let tif := VStr (Args.time_in_force args) in
  (Args.type args = "MARKET" ->
   let d := [("symbol", symbol); ("side", side); ("type", VStr "MARKET");
             ("quantity", quantity)] in
   sends (place bot args) h w
     [request_for c "POST" "/fapi/v1/order" (signed_params c now d)]
   /\ keys (signed_params c now d)
      = ["symbol"; "side"; "type"; "quantity"; "timestamp"; "signature"]
   /\ dict_get "price" (signed_params c now d) = None
   /\ dict_get "timeInForce" (signed_params c now d) = None)
  /\ (Args.type args = "LIMIT" ->
      forall price, Args.price args = Some price -> float_bool price = true ->
      let d := [("symbol", symbol); ("side", side); ("type", VStr "LIMIT");
                ("quantity", quantity); ("price", VFloat price);
                ("timeInForce", tif)] in
      sends (place bot args) h w
        [request_for c "POST" "/fapi/v1/order" (signed_params c now d)]
      /\ keys (signed_params c now d)
         = ["symbol"; "side"; "type"; "quantity"; "price"; "timeInForce";
            "timestamp"; "signature"])
  /\ (Args.type args = "STOP" ->
      forall stop_price price,
        Args.stop_price args = Some stop_price -> float_bool stop_price = true ->
        Args.price args = Some price -> float_bool price = true ->
      let d := [("symbol", symbol); ("side", side); ("type", VStr "STOP");
                ("quantity", quantity); ("stopPrice", VFloat stop_price);
                ("price", VFloat price); ("timeInForce", tif)] in
      sends (place bot args) h w
        [request_for c "POST" "/fapi/v1/order" (signed_params c now d)]
      /\ keys (signed_params c now d)
         = ["symbol"; "side"; "type"; "quantity"; "stopPrice"; "price";
            "timeInForce"; "timestamp"; "signature"]).
Proof.
  intros c now symbol side quantity tif. split; [|split].
  - intros Ht d. split; [|repeat split].
    apply place_sends. unfold order_params. rewrite Ht. reflexivity.
  - intros Ht price Hp Hb d. split; [|reflexivity].
    apply place_sends. unfold order_params. rewrite Ht, Hp, Hb. reflexivity.
  - intros Ht stop_price price Hs Hsb Hp Hb d. split; [|reflexivity].
    apply place_sends. unfold order_params. rewrite Ht, Hs, Hsb, Hp, Hb. reflexivity.
Qed.

Lemma order_kind_selects_parameters_witness :
  sends (place sample_bot market_args) calm_host empty_world
    [request_for sample_client "POST" "/fapi/v1/order"
       (signed_params sample_client 1700000000000
          [("symbol", VStr "BTCUSDT"); ("side", VStr "BUY"); ("type", VStr "MARKET");
           ("quantity", VFloat (FDec false 1 (-2)))])].
Proof.
  exact (proj1 (proj1 (order_kind_selects_parameters sample_bot market_args
                         calm_host empty_world) eq_refl)).
Defined.

(* ================================================================= *)
(** ** The events of a run *)

Lemma signed_call_trace self method path d h w :
  trace (snd (signed_call self method path d h w))
  = (trace w ++ call_events self method path d h w)%list.
Proof. reflexivity. Qed.

Lemma requests_of_call self method path d h w :
  requests_of (call_events self method path d h w)
  = [request_for self method path (signed_params self (clock h (ticks w)) d)].
Proof. unfold call_events. simpl. now rewrite requests_of_reply. Qed.

Lemma order_workflow_trace bot args h w :
  fst (order_workflow bot args h w) = Ok tt
  /\ trace (snd (order_workflow bot args h w))
     = (trace w ++ workflow_events bot args h w)%list.
Proof.
  rewrite order_workflow_run. unfold workflow_events.
  destruct (order_params args) as [d|]; [|split; reflexivity].
  cbv zeta.
  destruct (fst (signed_call (client bot) "POST" "/fapi/v1/order" d h w))
    as [result|e]; [|split; [reflexivity | trace_eq]].
  unfold report_events, status_params.
  destruct (has_orderId result); [|split; [reflexivity | trace_eq]].
  match goal with
  | |- context [match fst ?sc2 with _ => _ end] => destruct (fst sc2) as [v|e]
  end; [destruct v|]; (split; [reflexivity | trace_eq]).
Qed.

Lemma place_result bot args h w result w1 :
  place bot args h w = (Ok (Some result), w1) ->
  exists d,
    order_params args = Some d
    /\ fst (signed_call (client bot) "POST" "/fapi/v1/order" d h w) = Ok result
    /\ w1 = snd (signed_call (client bot) "POST" "/fapi/v1/order" d h w).
Proof.
  rewrite place_run. destruct (order_params args) as [d|]; [|discriminate].
  destruct (fst (signed_call (client bot) "POST" "/fapi/v1/order" d h w)) eqn:E;
    simpl; intros [= -> <-]. eauto.
Qed.

Lemma place_raises bot args h w e w1 :
  place bot args h w = (Raise e, w1) ->
  exists d,
    order_params args = Some d
    /\ fst (signed_call (client bot) "POST" "/fapi/v1/order" d h w) = Raise e
    /\ w1 = snd (signed_call (client bot) "POST" "/fapi/v1/order" d h w).
Proof.
  rewrite place_run. destruct (order_params args) as [d|]; [|discriminate].
  destruct (fst (signed_call (client bot) "POST" "/fapi/v1/order" d h w)) eqn:E;
    simpl; intros [= -> <-]. eauto.
Qed.

(** The requests of a run: the order, then the status call if the result
    passes the test. *)
Lemma workflow_requests bot args h w :
  requests_of (workflow_events bot args h w)
  = match order_params args with
    | None => []
    | Some d =>
        let sc := signed_call (client bot) "POST" "/fapi/v1/order" d h w in
        request_for (client bot) "POST" "/fapi/v1/order"
          (signed_params (client bot) (clock h (ticks w)) d)
        :: match fst sc with
           | Ok result =>
               if has_orderId result
               then [request_for (client bot) "GET" "/fapi/v1/order"
                       (signed_params (client bot) (clock h (ticks (snd sc)))
                          (status_params args result))]
               else []
           | Raise _ => []
           end
    end.
Proof.
  unfold workflow_events.
  destruct (order_params args) as [d|]; [|reflexivity].
  rewrite requests_of_app, requests_of_call. cbv zeta. cbn [app]. f_equal.
  destruct (fst (signed_call (client bot) "POST" "/fapi/v1/order" d h w))
    as [result|e]; [|reflexivity].
  unfold report_events. rewrite requests_of_app.
  change (requests_of [Stdout OutHeader; Stdout (OutResult result)]) with (@nil http_request).
  cbn [app].
  destruct (has_orderId result); [|reflexivity].
  rewrite requests_of_app, requests_of_call.
  match goal with
  | |- context [match fst ?sc2 with _ => _ end] => destruct (fst sc2) as [v|e]
  end; [destruct v|]; reflexivity.
Qed.

(** An order call that raised: the handler of [main] logs it. *)
Lemma order_workflow_after_failure bot args h w e w1 :
  place bot args h w = (Raise e, w1) ->
  order_workflow bot args h w = (Ok tt, emit (Log ERROR (MsgOrderFailed e)) w1).
Proof.
  intros Hp. apply place_raises in Hp. destruct Hp as (d & Ed & E1 & ->).
  rewrite order_workflow_run, Ed. cbv zeta. rewrite E1. reflexivity.
Qed.

(* ================================================================= *)
(** ** When the status is asked for (C4) *)

(** The test [main] makes on the result: a dict whose [orderId] is
    truthy. *)
Lemma has_orderId_iff result :
  has_orderId result = true
  <-> exists d v, result = VDict d /\ dict_get "orderId" d = Some v /\ truthy v = true.
Proof.
  split.
  - destruct result; simpl; try discriminate.
    destruct (dict_get "orderId" d) as [v|] eqn:E; [|discriminate].
    intros Hv. eauto.
  - intros (d & v & -> & Hd & Hv). simpl. now rewrite Hd.
Qed.

(** C4, amended.  The status call is made if and only if the order call
    returned and its result is a dict whose orderId is truthy (not null,
    and also not zero, not false, not empty); it is then the one GET, for
    the uppercased symbol and that orderId.  A result that does not pass
    ends the run once the result is printed; an order call that raised
    ends it with the failure logged; neither makes a status call. *)
Theorem status_call_iff_truthy_orderId bot args h w :
  exists evs,
    trace (snd (order_workflow bot args h w)) = (trace w ++ evs)%list
    /\ ((exists r, In r (requests_of evs) /\ req_verb r = GET)
        <-> (exists result w1 d v,
               place bot args h w = (Ok (Some result), w1)
               /\ result = VDict d
               /\ dict_get "orderId" d = Some v
               /\ truthy v = true))
    /\ (forall result w1,
          place bot args h w = (Ok (Some result), w1) ->
          has_orderId result = true ->
          filter is_GET (requests_of evs)
          = [request_for (client bot) "GET" "/fapi/v1/order"
               (signed_params (client bot) (clock h (ticks w1))
                  [("symbol", VStr (upper (Args.symbol args)));
                   ("orderId", getitem "orderId" result)])])
    /\ (forall result w1,
          place bot args h w = (Ok (Some result), w1) ->
          has_orderId result = false ->
          order_workflow bot args h w
          = (Ok tt, emit (Stdout (OutResult result)) (emit (Stdout OutHeader) w1)))
    /\ (forall e w1,
          place bot args h w = (Raise e, w1) ->
          order_workflow bot args h w = (Ok tt, emit (Log ERROR (MsgOrderFailed e)) w1)).
Proof.
  exists (workflow_events bot args h w).
  split; [apply order_workflow_trace|].
  rewrite workflow_requests.
  split; [|split; [|split]].
  - split.
    + intros (r & Hin & Hv).
      destruct (order_params args) as [d|] eqn:Ed; [|destruct Hin].
      cbv zeta in Hin. destruct Hin as [<- | Hin]; [discriminate|].
      destruct (fst (signed_call (client bot) "POST" "/fapi/v1/order" d h w))
        as [result|e] eqn:E1; [|destruct Hin].
      destruct (has_orderId result) eqn:Hid; [|destruct Hin].
      apply has_orderId_iff in Hid. destruct Hid as (rd & v & Hr & Hd & Hv').
      exists result, (snd (signed_call (client bot) "POST" "/fapi/v1/order" d h w)), rd, v.
      repeat split; auto.
      rewrite place_run, Ed, E1. reflexivity.
    + intros (result & w1 & rd & v & Hp & Hr & Hd & Hv).
      assert (Hid : has_orderId result = true)
        by (apply has_orderId_iff; eauto).
      apply place_result in Hp. destruct Hp as (d & Ed & E1 & ->).
      rewrite Ed. cbv zeta. rewrite E1, Hid.
      eexists. split; [right; left; reflexivity | reflexivity].
  - intros result w1 Hp Hid.
    apply place_result in Hp. destruct Hp as (d & Ed & E1 & ->).
    rewrite Ed. cbv zeta. rewrite E1, Hid. reflexivity.
  - intros result w1 Hp Hid.
    apply place_result in Hp. destruct Hp as (d & Ed & E1 & ->).
    rewrite order_workflow_run, Ed. cbv zeta. rewrite E1, Hid. reflexivity.
  - intros e w1. apply order_workflow_after_failure.
Qed.

(** C4 as stated fails: the order call returns a dict whose orderId is 0,
    which is not null, and no status call is made. *)
Lemma no_status_call_for_orderId_zero :
  fst (place sample_bot market_args zero_id_host empty_world)
  = Ok (Some (VDict [("orderId", VInt 0)]))
  /\ dict_get "orderId" [("orderId", VInt 0)] = Some (VInt 0)
  /\ VInt 0 <> VNone
  /\ filter is_GET
       (requests_of
          (trace (snd (order_workflow sample_bot market_args zero_id_host empty_world))))
     = []
  /\ List.length
       (requests_of
          (trace (snd (order_workflow sample_bot market_args zero_id_host empty_world))))
     = 1%nat.
Proof. repeat split; try discriminate; vm_compute; reflexivity. Qed.

(* ================================================================= *)
(** ** Missing prices (C5) *)

Lemma order_params_missing args :
  (Args.type args = "LIMIT" /\ Args.price args = None)
  \/ (Args.type args = "STOP"
      /\ (Args.stop_price args = None \/ Args.price args = None)) ->
  order_params args = None
  /\ refusal args
     = (if String.eqb (Args.type args) "LIMIT"
        then MsgLimitNeedsPrice else MsgStopNeedsPrices).
Proof.
  unfold order_params, refusal.
  intros [[Ht Hp] | [Ht [Hs | Hp]]]; rewrite Ht; simpl.
  - now rewrite Hp.
  - now rewrite Hs.
  - rewrite Hp. now destruct (Args.stop_price args).
Qed.

(** C5.  A LIMIT order without price, and a STOP order without stop price
    or without price, end [main] normally with no request sent, neither
    the order nor the status call; nothing but the trace changes, and with
    credentials at hand the run logs the bot's start and then the error
    that names the missing option. *)
Theorem missing_price_sends_nothing cl args h w :
  parse_args cl h w = (Ok args, w) ->
  (Args.type args = "LIMIT" /\ Args.price args = None)
  \/ (Args.type args = "STOP"
      /\ (Args.stop_price args = None \/ Args.price args = None)) ->
  fst (main cl h w) = Ok tt
  /\ (exists evs,
        trace (snd (main cl h w)) = (trace w ++ evs)%list
        /\ requests_of evs = []
        /\ (forall ks, credentials args (environ w) = Some ks ->
              evs = [Log INFO (MsgInitialized (Args.base_url args));
                     Log ERROR (if String.eqb (Args.type args) "LIMIT"
                                then MsgLimitNeedsPrice else MsgStopNeedsPrices)]))
  /\ heap (snd (main cl h w)) = heap w
  /\ sent (snd (main cl h w)) = sent w
  /\ ticks (snd (main cl h w)) = ticks w
  /\ environ (snd (main cl h w)) = environ w.
Proof.
  intros Hparse Hmiss.
  destruct (order_params_missing args Hmiss) as [Hnone Hmsg].
  rewrite (main_run _ _ _ _ Hparse).
  destruct (credentials args (environ w)) as [ks|].
  - rewrite order_workflow_run, Hnone, Hmsg.
    split; [reflexivity|]. split; [|repeat split].
    eexists. split; [trace_eq|]. split; [reflexivity|].
    intros ? _. reflexivity.
  - split; [reflexivity|]. split; [|repeat split].
    eexists. split; [reflexivity|]. split; [reflexivity|].
    intros ? [=].
Qed.

Lemma missing_price_sends_nothing_witness :
  fst (main limit_without_price calm_host empty_world) = Ok tt
  /\ (exists evs,
        trace (snd (main limit_without_price calm_host empty_world))
        = (trace empty_world ++ evs)%list
        /\ requests_of evs = []
        /\ (forall ks, credentials limit_without_price_args (environ empty_world) = Some ks ->
              evs = [Log INFO (MsgInitialized TESTNET_BASE); Log ERROR MsgLimitNeedsPrice])).
Proof.
  pose proof (missing_price_sends_nothing limit_without_price limit_without_price_args
                calm_host empty_world eq_refl (or_introl (conj eq_refl eq_refl))) as H.
  exact (conj (proj1 H) (proj1 (proj2 H))).
Defined.

(* ================================================================= *)
(** ** A status call that fails (C6) *)

Lemma no_warning_in_reply rep : existsb is_warning (reply_events rep) = false.
Proof.
  destruct rep as [why|st text js]; simpl; auto.
  destruct ((400 <=? st) && (st <? 600)); simpl; auto.
  destruct js; reflexivity.
Qed.

Lemma no_warning_in_call self method path d h w :
  existsb is_warning (call_events self method path d h w) = false.
Proof. unfold call_events. simpl. apply no_warning_in_reply. Qed.

(** The program has no record at the warning level. *)
Lemma no_warning_in_workflow bot args h w :
  existsb is_warning (workflow_events bot args h w) = false.
Proof.
  unfold workflow_events.
  destruct (order_params args) as [d|]; [|reflexivity].
  rewrite existsb_app, no_warning_in_call. cbn [orb].
  destruct (fst (signed_call (client bot) "POST" "/fapi/v1/order" d h w))
    as [result|e]; [|reflexivity].
  unfold report_events. rewrite existsb_app. cbn [existsb is_warning orb].
  destruct (has_orderId result); [|reflexivity].
  rewrite existsb_app, no_warning_in_call. cbn [orb].
  match goal with
  | |- context [match fst ?sc2 with _ => _ end] => destruct (fst sc2) as [v|e]
  end; [destruct v|]; reflexivity.
Qed.

(** C6, amended.  When the order call returned a result with an orderId
    and the status call raises, the result has been printed before, and
    [main] still ends normally; but the failure is caught by the one
    handler of [main], the handler of a failed order call, and logged by it
    at the error level as a failed order.  No record of the run is at the
    warning level. *)
Theorem status_failure_is_logged_as_order_failure bot args h w result w1 e w2 :
  place bot args h w = (Ok (Some result), w1) ->
  has_orderId result = true ->
  get_order (client bot) (Args.symbol args) (getitem "orderId" result) h
    (emit (Stdout (OutResult result)) (emit (Stdout OutHeader) w1))
  = (Raise e, w2) ->
  order_workflow bot args h w = (Ok tt, emit (Log ERROR (MsgOrderFailed e)) w2)
  /\ (exists evs,
        trace w2 = (trace w1 ++ Stdout OutHeader :: Stdout (OutResult result) :: evs)%list)
  /\ (forall args' h' w' e' w1',
        place bot args' h' w' = (Raise e', w1') ->
        order_workflow bot args' h' w'
        = (Ok tt, emit (Log ERROR (MsgOrderFailed e')) w1'))
  /\ (exists evs,
        trace (snd (order_workflow bot args h w)) = (trace w ++ evs)%list
        /\ existsb is_warning evs = false).
Proof.
  intros Hp Hid Hget.
  apply place_result in Hp. destruct Hp as (d & Ed & E1 & ->).
  rewrite get_order_run in Hget.
  split; [|split; [|split]].
  - rewrite order_workflow_run, Ed. cbv zeta. rewrite E1, Hid.
    assert (Hr := f_equal fst Hget). assert (Hw := f_equal snd Hget).
    cbn [fst snd] in Hr, Hw. rewrite Hr, Hw. reflexivity.
  - apply (f_equal snd) in Hget. simpl snd in Hget. rewrite <- Hget.
    eexists. rewrite signed_call_trace. trace_eq.
  - intros args' h' w' e' w1'. apply order_workflow_after_failure.
  - exists (workflow_events bot args h w).
    split; [apply order_workflow_trace | apply no_warning_in_workflow].
Qed.

Lemma status_failure_is_logged_as_order_failure_witness :
  fst (order_workflow sample_bot market_args no_status_host empty_world) = Ok tt
  /\ last (trace (snd (order_workflow sample_bot market_args no_status_host empty_world)))
          (Stdout OutHeader)
     = Log ERROR (MsgOrderFailed (HTTPError 400)).
Proof.
  pose proof (status_failure_is_logged_as_order_failure sample_bot market_args
                no_status_host empty_world
                (VDict [("orderId", VInt 12345)])
                (snd (place sample_bot market_args no_status_host empty_world))
                (HTTPError 400)
                (snd (get_order sample_client "BTCUSDT" (VInt 12345) no_status_host
                        (emit (Stdout (OutResult (VDict [("orderId", VInt 12345)])))
                           (emit (Stdout OutHeader)
                              (snd (place sample_bot market_args no_status_host
                                      empty_world))))))
                ltac:(vm_compute; reflexivity) eq_refl
                ltac:(vm_compute; reflexivity)) as H.
  destruct H as [H _]. rewrite H. split; vm_compute; reflexivity.
Defined.

(** C6 as stated fails: after an accepted order, a refused status call
    ends the run with the record of a failed order, at the error level,
    the very record a refused order ends with; nothing is logged as a
    warning. *)
Lemma status_failure_ends_like_order_failure :
  fst (place sample_bot market_args no_status_host empty_world)
  = Ok (Some (VDict [("orderId", VInt 12345)]))
  /\ last (trace (snd (order_workflow sample_bot market_args no_status_host empty_world)))
          (Stdout OutHeader)
     = Log ERROR (MsgOrderFailed (HTTPError 400))
  /\ last (trace (snd (order_workflow sample_bot market_args refusing_host empty_world)))
          (Stdout OutHeader)
     = Log ERROR (MsgOrderFailed (HTTPError 400))
  /\ existsb is_warning
       (trace (snd (order_workflow sample_bot market_args no_status_host empty_world)))
     = false.
Proof. repeat split; vm_compute; reflexivity. Qed.

(* ================================================================= *)
(** ** The quantity (C7) *)

Lemma not_float_false o :
  not_float o = false <-> exists f, o = Some f /\ float_bool f = true.
Proof.
  destruct o as [f|]; simpl.
  - rewrite negb_false_iff. split; [eauto | intros (? & [= <-] & ?); auto].
  - split; [discriminate | intros (? & [=] & _)].
Qed.

Lemma order_params_quantity args :
  Args.type args = "MARKET"
  \/ (Args.type args = "LIMIT" /\ not_float (Args.price args) = false)
  \/ (Args.type args = "STOP" /\ not_float (Args.stop_price args) = false
      /\ not_float (Args.price args) = false) ->
  exists d,
    order_params args = Some d
    /\ dict_get "quantity" d = Some (VFloat (Args.quantity args)).
Proof.
  unfold order_params.
  intros [Ht | [[Ht Hp] | [Ht [Hs Hp]]]]; rewrite Ht; simpl.
  - eexists. split; reflexivity.
  - apply not_float_false in Hp. destruct Hp as (p & -> & ->).
    eexists. split; reflexivity.
  - apply not_float_false in Hp. destruct Hp as (p & -> & ->).
    apply not_float_false in Hs. destruct Hs as (sp & -> & ->).
    eexists. split; reflexivity.
Qed.

(** C7, amended.  No check is made on the quantity: whatever it is, zero
    and negative included, an accepted command line with credentials whose
    type is MARKET, or LIMIT or STOP with their prices, makes [main] send
    the order, with the quantity as given. *)
Theorem quantity_is_not_checked cl args h w ks :
  parse_args cl h w = (Ok args, w) ->
  credentials args (environ w) = Some ks ->
  Args.type args = "MARKET"
  \/ (Args.type args = "LIMIT" /\ not_float (Args.price args) = false)
  \/ (Args.type args = "STOP" /\ not_float (Args.stop_price args) = false
      /\ not_float (Args.price args) = false) ->
  exists evs r rest,
    trace (snd (main cl h w)) = (trace w ++ evs)%list
    /\ requests_of evs = r :: rest
    /\ req_verb r = POST
    /\ req_url r = base_url (client (bot_for ks args)) ++ "/fapi/v1/order"
    /\ dict_get "quantity" (req_params r) = Some (VFloat (Args.quantity args)).
Proof.
  intros Hparse Hcred Hkind.
  destruct (order_params_quantity args Hkind) as (d & Hd & Hq).
  rewrite (main_run _ _ _ _ Hparse), Hcred.
  destruct (order_workflow_trace (bot_for ks args) args h
              (emit (Log INFO (MsgInitialized (Args.base_url args))) w)) as [_ Htr].
  eexists (_ :: workflow_events _ _ _ _). do 2 eexists.
  split; [rewrite Htr; trace_eq|].
  split; [cbn [requests_of flat_map app]; fold (requests_of);
          rewrite workflow_requests, Hd; reflexivity|].
  repeat split.
  unfold request_for, signed_params. cbn [req_params].
  rewrite !dict_get_set_other by discriminate. exact Hq.
Qed.

Lemma quantity_is_not_checked_witness :
  exists evs r rest,
    trace (snd (main negative_quantity calm_host empty_world))
    = (trace empty_world ++ evs)%list
    /\ requests_of evs = r :: rest
    /\ req_verb r = POST
    /\ req_url r
       = base_url (client (bot_for ("key", "secret") negative_quantity_args))
         ++ "/fapi/v1/order"
    /\ dict_get "quantity" (req_params r) = Some (VFloat (FDec true 1 0)).
Proof.
  exact (quantity_is_not_checked negative_quantity negative_quantity_args
           calm_host empty_world ("key", "secret") eq_refl eq_refl
           (or_introl eq_refl)).
Defined.

(** C7 as stated fails: a MARKET order for the quantity -1.0 is not
    rejected; it is sent to the exchange as it is. *)
Lemma negative_quantity_is_sent :
  float_le0 (FDec true 1 0) = true
  /\ float_str (FDec true 1 0) = "-1.0"
  /\ map (fun r => (req_verb r, dict_get "quantity" (req_params r)))
         (requests_of (trace (snd (main negative_quantity refusing_host empty_world))))
     = [(POST, Some (VFloat (FDec true 1 0)))]
  /\ existsb (fun ev => match ev with
                        | Log _ MsgLimitNeedsPrice | Log _ MsgStopNeedsPrices
                        | Log _ (MsgUnsupportedType _) | Log _ MsgNoCredentials => true
                        | _ => false
                        end)
       (trace (snd (main negative_quantity refusing_host empty_world)))
     = false.
Proof. repeat split; vm_compute; reflexivity. Qed.

(* ================================================================= *)
(** ** Where the credentials come from (C9) *)

Lemma getenv_setenv_other k k' v env :
  k <> k' -> Os.getenv k (Os.setenv k' v env) = Os.getenv k env.
Proof.
  intros Hne. induction env as [|[k0 v0] r IH]; simpl.
  - destruct (String.eqb k k') eqn:E; auto.
    apply String.eqb_eq in E. contradiction.
  - destruct (String.eqb k' k0) eqn:E; simpl.
    + apply String.eqb_eq in E. subst k0.
      destruct (String.eqb k k') eqn:E'; auto.
      apply String.eqb_eq in E'. contradiction.
    + now rewrite IH.
Qed.

(** [load_dotenv()] leaves a variable that is already set as it is. *)
Lemma load_dotenv_keeps_environment file env k v :
  Os.getenv k env = Some v ->
  Os.getenv k (Dotenv.load_dotenv false file env) = Some v.
Proof.
  destruct file as [b|]; simpl; auto.
  unfold Dotenv.set_as_environment_variables.
  revert env. induction b as [|[k' o] r IH]; simpl; intros env Hk; auto.
  apply IH. rewrite andb_true_r.
  unfold Os.mem. destruct (Os.getenv k' env) eqn:E; auto.
  destruct o as [v'|]; auto.
  rewrite getenv_setenv_other; auto.
  intros ->. congruence.
Qed.

(** A key given on the command line, when not empty, is the one used. *)
Lemma command_line_wins args env k s :
  Args.api_key args = Some k -> k <> "" ->
  Args.api_secret args = Some s -> s <> "" ->
  credentials args env = Some (k, s).
Proof.
  intros Hk Hk' Hs Hs'. unfold credentials, or_else. rewrite Hk, Hs.
  apply String.eqb_neq in Hk', Hs'. rewrite Hk', Hs'. simpl.
  now rewrite Hk', Hs'.
Qed.

(** C9 fails on the code: with credentials both in the [.env] file and in
    the process environment, and none on the command line, the script sends
    the key of the environment and signs with the secret of the
    environment, although its comments rank the file first. *)
Lemma environment_wins_over_dotenv :
  map req_api_key
      (requests_of (trace (snd (script market_without_keys host_with_dotenv
                                  world_with_environ))))
  = ["envkey"]
  /\ map signature_of
         (requests_of (trace (snd (script market_without_keys host_with_dotenv
                                     world_with_environ))))
     = [Some (VStr (Hashlib.hexdigest
                      (Hashlib.hmac_sha256 (encode_utf8 "envsecret")
                         (encode_utf8
                            "symbol=BTCUSDT&side=BUY&type=MARKET&quantity=0.01&timestamp=1700000000000"))))].
Proof. split; vm_compute; reflexivity. Qed.

(* ================================================================= *)
(** ** More on [_request]: unsigned requests, outcomes, the caller's
       parameters *)

Lemma request_unsigned_fresh self method path params h w :
  (params = None \/ exists l, params = Some l /\ nth_error (heap w) l = Some []) ->
  _request self method path params false h w
  = attempt self method (base_url self ++ path) (List.length (heap w)) h
      {| heap := (heap w ++ [[]])%list;
         environ := environ w; ticks := ticks w; sent := sent w;
         trace := trace w |}.
Proof.
  intros Hp.
  cbv beta iota zeta delta [_request bind load ret alloc with_heap].
  destruct Hp as [-> | [l [-> Hl]]]; simpl; [|rewrite Hl; simpl]; reflexivity.
Qed.

Lemma submitted_cases params d w :
  submitted params w = Some d ->
  ((params = None \/ exists l, params = Some l /\ nth_error (heap w) l = Some [])
   /\ d = [])
  \/ exists l, params = Some l /\ nth_error (heap w) l = Some d /\ d <> [].
Proof.
  intros Hs. destruct params as [l|]; simpl in Hs.
  - destruct d as [|kv d'].
    + left. split; [right; eauto | reflexivity].
    + right. exists l. repeat split; auto. discriminate.
  - left. split; [now left | congruence].
Qed.

(** X1.  A request that is not signed sends the parameters as they are:
    no timestamp and no signature are added, the clock is not read, and no
    dict that exists is written to. *)
Theorem unsigned_request_adds_nothing self method path params d h w :
  submitted params w = Some d ->
  sends (_request self method path params false) h w
    [request_for self method path d]
  /\ ticks (snd (_request self method path params false h w)) = ticks w
  /\ sent (snd (_request self method path params false h w)) = S (sent w)
  /\ (forall l, (l < List.length (heap w))%nat ->
        nth_error (heap (snd (_request self method path params false h w))) l
        = nth_error (heap w) l).
Proof.
  intros Hs. unfold sends.
  destruct (submitted_cases _ _ _ Hs) as [[Hfresh ->] | (l & -> & Hl & Hd)].
  - rewrite (request_unsigned_fresh _ _ _ _ _ _ Hfresh).
    erewrite attempt_run by (simpl; apply nth_error_fresh).
    simpl. split; [|repeat split].
    + eexists. split; [reflexivity|]. simpl. now rewrite requests_of_reply.
    + intros l Hlt. now apply nth_error_old.
  - rewrite (request_unsigned_own _ _ _ _ _ _ _ Hl Hd).
    erewrite attempt_run by eassumption.
    simpl. split; [|repeat split].
    eexists. split; [reflexivity|]. simpl. now rewrite requests_of_reply.
Qed.

Lemma unsigned_request_adds_nothing_witness :
  sends (_request sample_client "GET" "/fapi/v1/order" (Some 0%nat) false)
    calm_host (world_with [("symbol", VStr "BTCUSDT")])
    [request_for sample_client "GET" "/fapi/v1/order" [("symbol", VStr "BTCUSDT")]].
Proof.
  exact (proj1 (unsigned_request_adds_nothing sample_client "GET" "/fapi/v1/order"
                  (Some 0%nat) [("symbol", VStr "BTCUSDT")] calm_host
                  (world_with [("symbol", VStr "BTCUSDT")]) eq_refl)).
Defined.

(** X2.  The method is compared without regard to case with GET: any
    spelling of GET is sent with [session.get], and every other method, a
    DELETE or a PUT as well, is sent with [session.post]. *)
Theorem method_other_than_get_is_posted self method path params d h w :
  submitted params w = Some d ->
  exists r,
    sends (_request self method path params true) h w [r]
    /\ (upper method = "GET" -> req_verb r = GET)
    /\ (upper method <> "GET" -> req_verb r = POST).
Proof.
  intros Hs.
  destruct (request_signed_run self method path params d h w Hs) as (_ & Htr & _).
  eexists. split.
  - eexists. split; [exact Htr|]. simpl. now rewrite requests_of_reply.
  - unfold request_for, wire_verb. cbn [req_verb]. split.
    + intros ->. reflexivity.
    + intros Hne. apply String.eqb_neq in Hne. now rewrite Hne.
Qed.

Lemma method_other_than_get_is_posted_witness :
  exists r,
    sends (_request sample_client "delete" "/fapi/v1/order" None true)
      calm_host empty_world [r]
    /\ ("DELETE" = "GET" -> req_verb r = GET)
    /\ ("DELETE" <> "GET" -> req_verb r = POST).
Proof.
  exact (method_other_than_get_is_posted sample_client "delete" "/fapi/v1/order"
           None [] calm_host empty_world eq_refl).
Defined.




(** X4.  A signed request changes nothing of the parameters it is given
    but the timestamp and the signature: every other entry is sent with the
    value it had, the entries keep their order, and a timestamp or a
    signature is added last only when the caller gave none.  A timestamp
    the caller did give is replaced by the clock reading. *)
Theorem signed_request_keeps_parameters self method path params d h w :
  submitted params w = Some d ->
  exists r,
    sends (_request self method path params true) h w [r]
    /\ (forall k, k <> "timestamp" -> k <> "signature" ->
          dict_get k (req_params r) = dict_get k d)
    /\ dict_get "timestamp" (req_params r) = Some (VInt (clock h (ticks w)))
    /\ keys (req_params r)
       = (keys d
          ++ match dict_get "timestamp" d with Some _ => [] | None => ["timestamp"] end
          ++ match dict_get "signature" d with Some _ => [] | None => ["signature"] end)%list.
Proof.
  intros Hs.
  destruct (request_signed_run self method path params d h w Hs) as (_ & Htr & _).
  eexists. split; [|split; [|split]].
  - eexists. split; [exact Htr|]. simpl. now rewrite requests_of_reply.
  - intros k Ht Hg. unfold request_for, signed_params. cbn [req_params].
    now rewrite !dict_get_set_other.
  - unfold request_for, signed_params. cbn [req_params].
    rewrite dict_get_set_other by discriminate. apply dict_get_set_same.
  - unfold request_for, signed_params. cbn [req_params].
    rewrite !keys_dict_set, dict_get_set_other by discriminate.
    destruct (dict_get "timestamp" d), (dict_get "signature" d);
      rewrite <- ?app_assoc, ?app_nil_r; reflexivity.
Qed.

Lemma signed_request_keeps_parameters_witness :
  exists r,
    sends (_request sample_client "GET" "/fapi/v1/order" (Some 0%nat) true)
      calm_host (world_with [("timestamp", VInt 1); ("symbol", VStr "BTCUSDT")]) [r]
    /\ (forall k, k <> "timestamp" -> k <> "signature" ->
          dict_get k (req_params r)
          = dict_get k [("timestamp", VInt 1); ("symbol", VStr "BTCUSDT")])
    /\ dict_get "timestamp" (req_params r) = Some (VInt 1700000000000)
    /\ keys (req_params r) = ["timestamp"; "symbol"; "signature"].
Proof.
  exact (signed_request_keeps_parameters sample_client "GET" "/fapi/v1/order"
           (Some 0%nat) [("timestamp", VInt 1); ("symbol", VStr "BTCUSDT")]
           calm_host
           (world_with [("timestamp", VInt 1); ("symbol", VStr "BTCUSDT")]) eq_refl).
Defined.

(* ================================================================= *)
(** ** The shape of a signature, and of the base URL *)

Import Hashlib.

Lemma round_length s kw : List.length s = 8%nat -> List.length (round s kw) = 8%nat.
Proof.
  destruct s as [|a [|b [|c [|d [|e [|f [|g [|i [|j s]]]]]]]]]; simpl; try discriminate.
  reflexivity.
Qed.

Lemma rounds_length l s :
  List.length s = 8%nat -> List.length (fold_left round l s) = 8%nat.
Proof.
  revert s. induction l as [|kw l IH]; simpl; intros s Hs; auto.
  apply IH. now apply round_length.
Qed.

Lemma compress_length hs block :
  List.length hs = 8%nat -> List.length (compress hs block) = 8%nat.
Proof.
  intros Hh. unfold compress.
  rewrite length_map, length_combine, rounds_length, Hh by exact Hh. reflexivity.
Qed.

Lemma blocks_length fuel hs l :
  List.length hs = 8%nat -> List.length (blocks fuel hs l) = 8%nat.
Proof.
  revert hs l. induction fuel as [|k IH]; intros hs l Hh; simpl; auto.
  destruct l; auto. apply IH. now apply compress_length.
Qed.

Lemma flat_map_length_const {A B} (f : A -> list B) n l :
  (forall a, List.length (f a) = n) ->
  List.length (flat_map f l) = (List.length l * n)%nat.
Proof.
  intros Hf. induction l as [|a l IH]; simpl; auto.
  now rewrite length_app, Hf, IH.
Qed.

(** A digest has 32 bytes. *)
Lemma sha256_Z_length msg : List.length (sha256_Z msg) = 32%nat.
Proof.
  unfold sha256_Z.
  rewrite (flat_map_length_const _ 4).
  - rewrite blocks_length; reflexivity.
  - intros a. unfold be_bytes. now rewrite length_map, length_rev, length_seq.
Qed.

Lemma hmac_sha256_length key msg : List.length (hmac_sha256 key msg) = 32%nat.
Proof. unfold hmac_sha256. now rewrite length_map, sha256_Z_length. Qed.

Lemma hexdigest_length d : String.length (hexdigest d) = (2 * List.length d)%nat.
Proof.
  unfold hexdigest. induction d as [|b d IH]; simpl; auto.
  rewrite IH. lia.
Qed.

Lemma hex_digits_of_byte b :
  is_hex_digit (hex_digit (Byte.to_N b / 16)) = true
  /\ is_hex_digit (hex_digit (Byte.to_N b mod 16)) = true.
Proof. destruct b; split; reflexivity. Qed.

Lemma hexdigest_hex d :
  Forall (fun c => is_hex_digit c = true) (list_ascii_of_string (hexdigest d)).
Proof.
  induction d as [|b d IH]; simpl; [constructor|].
  destruct (hex_digits_of_byte b) as [H1 H2].
  constructor; [exact H1|]. constructor; [exact H2 | exact IH].
Qed.

(** X5.  Whatever the secret and the parameters, a signature is a string
    of exactly 64 characters, each a digit or a letter a-f. *)
Theorem signature_is_64_hex_digits self params :
  String.length (_sign self params) = 64%nat
  /\ Forall (fun c => is_hex_digit c = true) (list_ascii_of_string (_sign self params)).
Proof.
  unfold _sign. split.
  - now rewrite hexdigest_length, hmac_sha256_length.
  - apply hexdigest_hex.
Qed.

Lemma rstrip_app_char c s : rstrip c (s ++ String c "") = rstrip c s.
Proof.
  induction s as [|a r IH]; simpl.
  - now rewrite Ascii.eqb_refl.
  - now rewrite IH.
Qed.

Lemma rstrip_not_ending c s : ends_with c (rstrip c s) = false.
Proof.
  induction s as [|a r IH]; simpl; auto.
  destruct (rstrip c r) as [|b r'] eqn:E.
  - destruct (Ascii.eqb a c) eqn:Ea; simpl; auto.
  - simpl in IH |- *. exact IH.
Qed.

Lemma rstrip_idempotent c s : rstrip c (rstrip c s) = rstrip c s.
Proof.
  induction s as [|a r IH]; simpl; auto.
  destruct (rstrip c r) as [|b r'] eqn:E.
  - destruct (Ascii.eqb a c) eqn:Ea; simpl; auto. now rewrite Ea.
  - change (rstrip c (String a (String b r'))) with
      (match rstrip c (String b r') with
       | EmptyString => if Ascii.eqb a c then EmptyString else String a EmptyString
       | r0 => String a r0
       end).
    rewrite IH. reflexivity.
Qed.

(** X6.  A client never keeps a slash at the end of its base URL: giving
    the base URL with one more slash gives the same client, the URL of a
    request is the stripped base followed by the path, and a base URL
    already stripped is kept as it is. *)
Theorem base_url_has_no_trailing_slash key secret base method path d :
  ends_with "/" (base_url (BinanceFuturesREST.__init__ key secret base)) = false
  /\ BinanceFuturesREST.__init__ key secret (base ++ "/")
     = BinanceFuturesREST.__init__ key secret base
  /\ req_url (request_for (BinanceFuturesREST.__init__ key secret (base ++ "/"))
                method path d)
     = rstrip "/" base ++ path
  /\ base_url (BinanceFuturesREST.__init__ key secret
                 (base_url (BinanceFuturesREST.__init__ key secret base)))
     = base_url (BinanceFuturesREST.__init__ key secret base).
Proof.
  unfold BinanceFuturesREST.__init__, request_for. cbn [base_url req_url].
  rewrite rstrip_app_char, rstrip_idempotent.
  repeat split. apply rstrip_not_ending.
Qed.

(* ================================================================= *)
(** ** The command line *)

Lemma one_of_In choices s : one_of choices s = true <-> In s choices.
Proof.
  unfold one_of. rewrite existsb_exists. split.
  - intros (x & Hin & Heq). apply String.eqb_eq in Heq. now subst.
  - intros Hin. exists s. split; [exact Hin | apply String.eqb_refl].
Qed.

(** [parse_args] looks at the command line only. *)
Lemma parse_args_anywhere cl h w h' w' :
  parse_args cl h' w' = (fst (parse_args cl h w), w').
Proof.
  unfold parse_args.
  destruct (opt_symbol cl), (opt_side cl), (opt_type cl), (opt_quantity cl);
    try reflexivity.
  destruct (_ && _); reflexivity.
Qed.

(** What [parse_args] has checked when it returns. *)
Lemma parse_args_accepted cl h w args w' :
  parse_args cl h w = (Ok args, w') ->
  w' = w
  /\ opt_symbol cl = Some (Args.symbol args)
  /\ opt_side cl = Some (Args.side args)
  /\ In (Args.side args) ["BUY"; "SELL"]
  /\ opt_type cl = Some (Args.type args)
  /\ In (Args.type args) ["MARKET"; "LIMIT"; "STOP"]
  /\ opt_quantity cl = Some (Args.quantity args)
  /\ In (Args.time_in_force args) ["GTC"; "IOC"; "FOK"]
  /\ Args.time_in_force args = default "GTC" (opt_time_in_force cl)
  /\ Args.base_url args = default TESTNET_BASE (opt_base_url cl)
  /\ Args.price args = opt_price cl
  /\ Args.stop_price args = opt_stop_price cl
  /\ Args.api_key args = opt_api_key cl
  /\ Args.api_secret args = opt_api_secret cl.
Proof.
  unfold parse_args.
  destruct (opt_symbol cl) as [sy|], (opt_side cl) as [si|],
    (opt_type cl) as [ty|], (opt_quantity cl) as [q|]; try discriminate.
  destruct (one_of ["BUY"; "SELL"] si) eqn:E1; [|discriminate].
  destruct (one_of ["MARKET"; "LIMIT"; "STOP"] ty) eqn:E2; [|discriminate].
  destruct (one_of ["GTC"; "IOC"; "FOK"] (default "GTC" (opt_time_in_force cl))) eqn:E3;
    [|discriminate].
  apply one_of_In in E1, E2, E3. cbn [andb].
  intros [= <- <-]. cbn. repeat split; assumption.
Qed.




(* ================================================================= *)
(** ** main as a whole *)

Lemma main_trace cl args h w :
  parse_args cl h w = (Ok args, w) ->
  fst (main cl h w) = Ok tt
  /\ trace (snd (main cl h w)) = (trace w ++ main_events args h w)%list.
Proof.
  intros Hp. rewrite (main_run _ _ _ _ Hp). unfold main_events.
  destruct (credentials args (environ w)) as [ks|]; [|split; reflexivity].
  destruct (order_workflow_trace (bot_for ks args) args h
              (emit (Log INFO (MsgInitialized (Args.base_url args))) w)) as [Hf Ht].
  split; [exact Hf|]. rewrite Ht. trace_eq.
Qed.


Lemma routine_reply P rep :
  (forall ev, routine ev = true -> P ev = false) ->
  existsb P (reply_events rep) = false.
Proof.
  intros HP. destruct rep as [why|st text js]; simpl.
  - now rewrite HP.
  - rewrite HP by reflexivity.
    destruct ((400 <=? st) && (st <? 600)); simpl; [now rewrite HP|].
    destruct js; simpl; [reflexivity | now rewrite HP].
Qed.

Lemma routine_call P self method path d h w :
  (forall ev, routine ev = true -> P ev = false) ->
  existsb P (call_events self method path d h w) = false.
Proof.
  intros HP. unfold call_events. cbn [existsb].
  rewrite !HP by reflexivity. now apply routine_reply.
Qed.

(** A test that fails on every routine event can only hold, in a run, of
    the refusal of the order. *)
Lemma routine_workflow P bot args h w :
  (forall ev, routine ev = true -> P ev = false) ->
  existsb P (workflow_events bot args h w)
  = match order_params args with
    | Some _ => false
    | None => P (Log ERROR (refusal args))
    end.
Proof.
  intros HP. unfold workflow_events.
  destruct (order_params args) as [d|]; [|simpl; apply orb_false_r].
  rewrite existsb_app, routine_call by exact HP. cbn [orb].
  destruct (fst (signed_call (client bot) "POST" "/fapi/v1/order" d h w))
    as [result|e]; [|simpl; now rewrite HP].
  unfold report_events. rewrite existsb_app. cbn [existsb].
  rewrite !HP by reflexivity. cbn [orb].
  destruct (has_orderId result); [|reflexivity].
  rewrite existsb_app, routine_call by exact HP. cbn [orb].
  match goal with
  | |- context [match fst ?sc2 with _ => _ end] => destruct (fst sc2) as [v|e]
  end; [destruct v|]; simpl; now rewrite HP.
Qed.

Lemma refusal_of_checked_type args :
  In (Args.type args) ["MARKET"; "LIMIT"; "STOP"] ->
  order_params args = None ->
  refusal args = MsgLimitNeedsPrice \/ refusal args = MsgStopNeedsPrices.
Proof.
  unfold order_params, refusal.
  intros [<- | [<- | [<- | []]]]; simpl; auto. discriminate.
Qed.

(** X9.  The last branch of [main] is never taken: for a command line
    that [parse_args] accepts, no run logs an unsupported order type. *)
Theorem unsupported_type_is_never_logged cl args h w :
  parse_args cl h w = (Ok args, w) ->
  exists evs,
    trace (snd (main cl h w)) = (trace w ++ evs)%list
    /\ existsb is_unsupported evs = false.
Proof.
  intros Hp. exists (main_events args h w).
  split; [apply (main_trace _ _ _ _ Hp)|].
  unfold main_events.
  destruct (credentials args (environ w)) as [ks|]; [|reflexivity].
  cbn [existsb is_unsupported orb].
  rewrite routine_workflow.
  - destruct (order_params args) eqn:E; [reflexivity|].
    destruct (parse_args_accepted cl h w args w Hp)
      as (_ & _ & _ & _ & _ & Hty & _).
    destruct (refusal_of_checked_type args Hty E) as [-> | ->]; reflexivity.
  - intros [l m| |] Hr; try reflexivity.
    destruct l, m; simpl in Hr; try discriminate; reflexivity.
Qed.

Lemma unsupported_type_is_never_logged_witness :
  exists evs,
    trace (snd (main limit_without_price calm_host empty_world))
    = (trace empty_world ++ evs)%list
    /\ existsb is_unsupported evs = false.
Proof.
  exact (unsupported_type_is_never_logged limit_without_price limit_without_price_args
           calm_host empty_world eq_refl).
Defined.

Lemma or_else_blank a b : blank a -> or_else a b = b.
Proof. intros [-> | ->]; reflexivity. Qed.

Lemma not_str_blank a : blank a -> not_str a = true.
Proof. intros [-> | ->]; reflexivity. Qed.

(** X10.  Without a key, or without a secret, on the command line and in
    the environment, where an empty string counts for nothing, [main] logs
    one error and returns: no bot is made, nothing is sent, nothing else
    changes. *)
Theorem missing_credentials_stop_main cl args h w :
  parse_args cl h w = (Ok args, w) ->
  (blank (Args.api_key args) /\ blank (Os.getenv "BINANCE_API_KEY" (environ w)))
  \/ (blank (Args.api_secret args) /\ blank (Os.getenv "BINANCE_API_SECRET" (environ w))) ->
  main cl h w = (Ok tt, emit (Log ERROR MsgNoCredentials) w).
Proof.
  intros Hp Hblank. unfold main, bind at 1. rewrite Hp.
  unfold bind, getenv. cbn [fst snd].
  destruct Hblank as [[Ha He] | [Ha He]]; rewrite (or_else_blank _ _ Ha).
  - now rewrite (not_str_blank _ He).
  - rewrite (not_str_blank _ He). now rewrite orb_true_r.
Qed.

Lemma missing_credentials_stop_main_witness :
  main market_without_keys calm_host empty_world
  = (Ok tt, emit (Log ERROR MsgNoCredentials) empty_world).
Proof.
  exact (missing_credentials_stop_main market_without_keys market_without_keys_args
           calm_host empty_world eq_refl
           (or_introl (conj (or_introl eq_refl) (or_introl eq_refl)))).
Defined.

Lemma requests_of_main args h w :
  requests_of (main_events args h w)
  = match credentials args (environ w) with
    | Some ks =>
        requests_of (workflow_events (bot_for ks args) args h
                       (emit (Log INFO (MsgInitialized (Args.base_url args))) w))
    | None => []
    end.
Proof.
  unfold main_events. destruct (credentials args (environ w)); reflexivity.
Qed.

(** X11.  A price of zero counts as no price: a LIMIT order whose price is
    0.0 or -0.0, and a STOP order whose stop price or price is, is refused
    like one without, and nothing is sent. *)
Theorem zero_price_counts_as_missing cl args h w :
  parse_args cl h w = (Ok args, w) ->
  (Args.type args = "LIMIT" /\ not_float (Args.price args) = true)
  \/ (Args.type args = "STOP"
      /\ (not_float (Args.stop_price args) = true \/ not_float (Args.price args) = true)) ->
  exists evs,
    trace (snd (main cl h w)) = (trace w ++ evs)%list
    /\ requests_of evs = []
    /\ (forall ks, credentials args (environ w) = Some ks ->
          evs = [Log INFO (MsgInitialized (Args.base_url args));
                 Log ERROR (if String.eqb (Args.type args) "LIMIT"
                            then MsgLimitNeedsPrice else MsgStopNeedsPrices)]).
Proof.
  intros Hp Hzero. exists (main_events args h w).
  split; [apply (main_trace _ _ _ _ Hp)|].
  assert (Hnone : order_params args = None
                  /\ refusal args = (if String.eqb (Args.type args) "LIMIT"
                                     then MsgLimitNeedsPrice else MsgStopNeedsPrices)).
  { unfold order_params, refusal, not_float in *.
    destruct Hzero as [[Ht Hz] | [Ht Hz]]; rewrite Ht; simpl.
    - destruct (Args.price args) as [p|]; [|auto].
      apply negb_true_iff in Hz. now rewrite Hz.
    - destruct (Args.stop_price args) as [sp|], (Args.price args) as [p|]; auto.
      destruct Hz as [Hz | Hz]; apply negb_true_iff in Hz; rewrite Hz;
        [|rewrite andb_false_r]; auto. }
  destruct Hnone as [Hnone Hmsg].
  unfold main_events, workflow_events. rewrite Hnone, Hmsg.
  destruct (credentials args (environ w)); (split; [reflexivity|]).
  - intros ? _. reflexivity.
  - intros ? [=].
Qed.

Lemma zero_price_counts_as_missing_witness :
  exists evs,
    trace (snd (main limit_at_zero calm_host empty_world))
    = (trace empty_world ++ evs)%list
    /\ requests_of evs = []
    /\ (forall ks, credentials limit_at_zero_args (environ empty_world) = Some ks ->
          evs = [Log INFO (MsgInitialized TESTNET_BASE); Log ERROR MsgLimitNeedsPrice]).
Proof.
  exact (zero_price_counts_as_missing limit_at_zero limit_at_zero_args
           calm_host empty_world eq_refl (or_introl (conj eq_refl eq_refl))).
Defined.






(* ================================================================= *)
(** ** The script: where the credentials come from *)

Lemma script_run cl h w :
  script cl h w
  = main cl h (with_environ (Dotenv.load_dotenv false (dotenv_file h) (environ w)) w).
Proof. reflexivity. Qed.

Lemma parse_args_moved cl args h w h' w' :
  parse_args cl h w = (Ok args, w) -> parse_args cl h' w' = (Ok args, w').
Proof.
  intros Hp. rewrite (parse_args_anywhere cl h w h' w'). now rewrite Hp.
Qed.

(** X14.  A key and a secret given on the command line, not empty, are
    the ones the bot is made of, whatever the environment and the [.env]
    file hold. *)
Theorem command_line_credentials_are_used cl args k s h w :
  parse_args cl h w = (Ok args, w) ->
  Args.api_key args = Some k -> k <> "" ->
  Args.api_secret args = Some s -> s <> "" ->
  script cl h w
  = order_workflow
      {| client := BinanceFuturesREST.__init__ k s (Args.base_url args) |} args h
      (emit (Log INFO (MsgInitialized (Args.base_url args)))
         (with_environ (Dotenv.load_dotenv false (dotenv_file h) (environ w)) w)).
Proof.
  intros Hp Hk Hk' Hs Hs'.
  rewrite script_run, (main_run cl args) by (eapply parse_args_moved; eauto).
  now rewrite (command_line_wins args _ k s Hk Hk' Hs Hs').
Qed.

Lemma command_line_credentials_are_used_witness :
  script market_cl host_with_dotenv world_with_environ
  = order_workflow
      {| client := BinanceFuturesREST.__init__ "key" "secret" (Args.base_url market_args) |}
      market_args host_with_dotenv
      (emit (Log INFO (MsgInitialized (Args.base_url market_args)))
         (with_environ
            (Dotenv.load_dotenv false (dotenv_file host_with_dotenv)
               (environ world_with_environ))
            world_with_environ)).
Proof.
  exact (command_line_credentials_are_used market_cl market_args "key" "secret"
           host_with_dotenv world_with_environ eq_refl eq_refl
           ltac:(discriminate) eq_refl ltac:(discriminate)).
Defined.

Lemma getenv_setenv_same k v env : Os.getenv k (Os.setenv k v env) = Some v.
Proof.
  induction env as [|[k' v'] r IH]; simpl.
  - now rewrite String.eqb_refl.
  - destruct (String.eqb k k') eqn:E; simpl; rewrite E; auto.
Qed.

(** A variable the environment lacks takes the value the file gives it. *)
Lemma dotenv_sets_missing b k v env :
  NoDup (map fst b) ->
  In (k, Some v) b ->
  Os.getenv k env = None ->
  Os.getenv k (Dotenv.set_as_environment_variables false b env) = Some v.
Proof.
  unfold Dotenv.set_as_environment_variables.
  revert env. induction b as [|[k' o] r IH]; simpl; intros env Hnd Hin Hk;
    [contradiction|].
  inversion Hnd as [|? ? Hnotin Hnd']; subst.
  rewrite andb_true_r.
  destruct Hin as [[= -> ->] | Hin].
  - unfold Os.mem. rewrite Hk.
    apply (load_dotenv_keeps_environment (Some r)). apply getenv_setenv_same.
  - assert (Hne : k <> k').
    { intros ->. apply Hnotin. change k' with (fst (k', Some v)). now apply in_map. }
    apply IH; auto.
    destruct (Os.mem k' env); auto.
    destruct o as [v'|]; auto.
    now rewrite getenv_setenv_other.
Qed.

(** X15.  When neither the command line nor the environment gives a key
    and a secret, the ones the [.env] file binds, not empty, are the ones
    the bot is made of. *)
Theorem dotenv_credentials_fill_in cl args b k s h w :
  parse_args cl h w = (Ok args, w) ->
  blank (Args.api_key args) ->
  blank (Args.api_secret args) ->
  Os.getenv "BINANCE_API_KEY" (environ w) = None ->
  Os.getenv "BINANCE_API_SECRET" (environ w) = None ->
  dotenv_file h = Some b ->
  NoDup (map fst b) ->
  In ("BINANCE_API_KEY", Some k) b -> k <> "" ->
  In ("BINANCE_API_SECRET", Some s) b -> s <> "" ->
  script cl h w
  = order_workflow
      {| client := BinanceFuturesREST.__init__ k s (Args.base_url args) |} args h
      (emit (Log INFO (MsgInitialized (Args.base_url args)))
         (with_environ (Dotenv.load_dotenv false (dotenv_file h) (environ w)) w)).
Proof.
  intros Hp Ha Has Hek Hes Hf Hnd Hik Hk Hisec Hs.
  rewrite script_run, (main_run cl args) by (eapply parse_args_moved; eauto).
  unfold credentials. cbn [environ with_environ].
  rewrite (or_else_blank _ _ Ha), (or_else_blank _ _ Has), Hf.
  cbn [Dotenv.load_dotenv].
  rewrite (dotenv_sets_missing b _ k _ Hnd Hik Hek),
    (dotenv_sets_missing b _ s _ Hnd Hisec Hes).
  apply String.eqb_neq in Hk, Hs. now rewrite Hk, Hs.
Qed.

Lemma dotenv_credentials_fill_in_witness :
  script market_without_keys host_with_dotenv empty_world
  = order_workflow
      {| client := BinanceFuturesREST.__init__ "filekey" "filesecret"
                     (Args.base_url market_without_keys_args) |}
      market_without_keys_args host_with_dotenv
      (emit (Log INFO (MsgInitialized (Args.base_url market_without_keys_args)))
         (with_environ
            (Dotenv.load_dotenv false (dotenv_file host_with_dotenv) (environ empty_world))
            empty_world)).
Proof.
  refine (dotenv_credentials_fill_in market_without_keys market_without_keys_args
            [("BINANCE_API_KEY", Some "filekey"); ("BINANCE_API_SECRET", Some "filesecret")]
            "filekey" "filesecret" host_with_dotenv empty_world
            eq_refl (or_introl eq_refl) (or_introl eq_refl) eq_refl eq_refl eq_refl
            _ (or_introl eq_refl) _ (or_intror (or_introl eq_refl)) _).
  - repeat constructor; simpl; intuition discriminate.
  - discriminate.
  - discriminate.
Defined.

(* ================================================================= *)
(** ** What reaches the console *)

Lemma existsb_filter {A} (f g : A -> bool) l :
  existsb g (filter f l) = existsb (fun a => f a && g a) l.
Proof.
  induction l as [|a l IH]; simpl; auto.
  destruct (f a); simpl; now rewrite IH.
Qed.

Lemma filter_all {A} (f g : A -> bool) l :
  (forall a, f a = g a) -> filter f l = filter g l.
Proof. intros H. induction l as [|a l IH]; simpl; auto. now rewrite H, IH. Qed.

(** X16.  Of a run of [main], the console shows no record of a request's
    parameters nor of a response body: those records are at the debug
    level, below the console handler's, and go to the log file only.  The
    log file holds every record. *)
Theorem console_shows_no_traffic cl args h w :
  parse_args cl h w = (Ok args, w) ->
  exists evs,
    trace (snd (main cl h w)) = (trace w ++ evs)%list
    /\ existsb shows_traffic (console evs) = false
    /\ filter shows_traffic evs = filter shows_traffic (log_file evs)
    /\ log_file evs = filter is_log evs.
Proof.
  intros Hp. exists (main_events args h w).
  split; [apply (main_trace _ _ _ _ Hp)|].
  split; [|split].
  - unfold console. rewrite existsb_filter. unfold main_events.
    destruct (credentials args (environ w)) as [ks|]; [|reflexivity].
    cbn [existsb]. rewrite routine_workflow.
    + now destruct (order_params args); [|unfold refusal; repeat destruct (String.eqb _ _)].
    + intros [l m| |] Hr; try reflexivity.
      destruct l, m; simpl in Hr; try discriminate; reflexivity.
  - unfold log_file. generalize (main_events args h w) as l.
    induction l as [|ev l IH]; simpl; auto.
    destruct ev as [lv m| |]; simpl; auto.
    destruct lv; simpl; destruct m; simpl; now rewrite IH.
  - unfold log_file. apply filter_all.
    intros [l m| |]; try reflexivity. now destruct l.
Qed.

Lemma console_shows_no_traffic_witness :
  exists evs,
    trace (snd (main market_cl calm_host empty_world)) = (trace empty_world ++ evs)%list
    /\ existsb shows_traffic (console evs) = false
    /\ filter shows_traffic evs = filter shows_traffic (log_file evs)
    /\ log_file evs = filter is_log evs.
Proof.
  exact (console_shows_no_traffic market_cl market_args calm_host empty_world eq_refl).
Defined.

(* ================================================================= *)
(** ** The answer to the status call *)

(** X17.  When the status call returns, its answer is printed only if it
    is a dict: the status it holds, or None when it holds none.  Any other
    answer, a list or a string, has no [get]; the error is caught and
    logged as a failed order, after the result of the order was printed. *)
Theorem status_answer_is_printed_or_fails bot args h w result w1 status w2 :
  place bot args h w = (Ok (Some result), w1) ->
  has_orderId result = true ->
  get_order (client bot) (Args.symbol args) (getitem "orderId" result) h
    (emit (Stdout (OutResult result)) (emit (Stdout OutHeader) w1))
  = (Ok status, w2) ->
  (forall s, status = VDict s ->
     order_workflow bot args h w
     = (Ok tt, emit (Stdout (OutStatus (default VNone (dict_get "status" s)))) w2))
  /\ (forall s, status = VDict s -> dict_get "status" s = None ->
        order_workflow bot args h w = (Ok tt, emit (Stdout (OutStatus VNone)) w2))
  /\ ((forall s, status <> VDict s) ->
      order_workflow bot args h w
      = (Ok tt, emit (Log ERROR (MsgOrderFailed (AttributeError "get"))) w2)).
Proof.
  intros Hp Hid Hget.
  apply place_result in Hp. destruct Hp as (d & Ed & E1 & ->).
  rewrite get_order_run in Hget.
  assert (Hr := f_equal fst Hget). assert (Hw := f_equal snd Hget).
  cbn [fst snd] in Hr, Hw.
  assert (Hrun : order_workflow bot args h w
                 = match status with
                   | VDict s =>
                       (Ok tt, emit (Stdout (OutStatus (default VNone (dict_get "status" s)))) w2)
                   | _ => (Ok tt, emit (Log ERROR (MsgOrderFailed (AttributeError "get"))) w2)
                   end).
  { rewrite order_workflow_run, Ed. cbv zeta. rewrite E1, Hid, Hr, Hw.
    destruct status; reflexivity. }
  rewrite Hrun. split; [|split].
  - intros s ->. reflexivity.
  - intros s -> ->. reflexivity.
  - intros Hnot. destruct status; try reflexivity. now destruct (Hnot d0).
Qed.

Lemma status_answer_is_printed_or_fails_witness :
  order_workflow sample_bot market_args silent_status_host empty_world
  = (Ok tt,
     emit (Stdout (OutStatus VNone))
       (snd (get_order sample_client "BTCUSDT" (VInt 12345) silent_status_host
               (emit (Stdout (OutResult (VDict [("orderId", VInt 12345)])))
                  (emit (Stdout OutHeader)
                     (snd (place sample_bot market_args silent_status_host
                             empty_world))))))).
Proof.
  exact (proj1 (proj2
           (status_answer_is_printed_or_fails sample_bot market_args
              silent_status_host empty_world
              (VDict [("orderId", VInt 12345)])
              (snd (place sample_bot market_args silent_status_host empty_world))
              (VDict [])
              (snd (get_order sample_client "BTCUSDT" (VInt 12345) silent_status_host
                      (emit (Stdout (OutResult (VDict [("orderId", VInt 12345)])))
                         (emit (Stdout OutHeader)
                            (snd (place sample_bot market_args silent_status_host
                                    empty_world))))))
              ltac:(vm_compute; reflexivity) eq_refl
              ltac:(vm_compute; reflexivity))) [] eq_refl eq_refl).
Defined.

(* ================================================================= *)
(** ** The prices *)

(** X18.  A price is only tested for being there and not zero: a LIMIT
    order with any other price, negative, infinite or not a number alike, is
    sent with that price and the time in force as given; so is a STOP order
    with its stop price and price. *)
Theorem prices_are_sent_as_given cl args ks h w :
  parse_args cl h w = (Ok args, w) ->
  credentials args (environ w) = Some ks ->
  (Args.type args = "LIMIT" ->
   forall p, Args.price args = Some p -> float_bool p = true ->
   exists evs r rest,
     trace (snd (main cl h w)) = (trace w ++ evs)%list
     /\ requests_of evs = r :: rest
     /\ req_verb r = POST
     /\ dict_get "price" (req_params r) = Some (VFloat p)
     /\ dict_get "timeInForce" (req_params r) = Some (VStr (Args.time_in_force args))
     /\ dict_get "stopPrice" (req_params r) = None)
  /\ (Args.type args = "STOP" ->
      forall sp p,
        Args.stop_price args = Some sp -> float_bool sp = true ->
        Args.price args = Some p -> float_bool p = true ->
      exists evs r rest,
        trace (snd (main cl h w)) = (trace w ++ evs)%list
        /\ requests_of evs = r :: rest
        /\ req_verb r = POST
        /\ dict_get "stopPrice" (req_params r) = Some (VFloat sp)
        /\ dict_get "price" (req_params r) = Some (VFloat p)
        /\ dict_get "timeInForce" (req_params r) = Some (VStr (Args.time_in_force args))).
Proof.
  intros Hp Hc.
  assert (Hall : forall d,
             order_params args = Some d ->
             exists evs r rest,
               trace (snd (main cl h w)) = (trace w ++ evs)%list
               /\ requests_of evs = r :: rest
               /\ req_verb r = POST
               /\ req_params r
                  = signed_params (client (bot_for ks args)) (clock h (ticks w)) d).
  { intros d Hd. exists (main_events args h w). do 2 eexists.
    split; [apply (main_trace _ _ _ _ Hp)|].
    rewrite requests_of_main, Hc, workflow_requests, Hd.
    split; [reflexivity|]. split; reflexivity. }
  split.
  - intros Ht p Hpr Hb.
    destruct (Hall (limit_params (Args.symbol args) (Args.side args)
                      (Args.quantity args) p (Args.time_in_force args)))
      as (evs & r & rest & Htr & Hreq & Hv & Hpar).
    { unfold order_params. now rewrite Ht, Hpr, Hb. }
    exists evs, r, rest. rewrite Hpar. repeat split; auto.
  - intros Ht sp p Hs Hsb Hpr Hb.
    destruct (Hall (stop_params (Args.symbol args) (Args.side args)
                      (Args.quantity args) sp p (Args.time_in_force args)))
      as (evs & r & rest & Htr & Hreq & Hv & Hpar).
    { unfold order_params. now rewrite Ht, Hs, Hsb, Hpr, Hb. }
    exists evs, r, rest. rewrite Hpar. repeat split; auto.
Qed.

Lemma prices_are_sent_as_given_witness :
  exists evs r rest,
    trace (snd (main limit_below_zero calm_host empty_world))
    = (trace empty_world ++ evs)%list
    /\ requests_of evs = r :: rest
    /\ req_verb r = POST
    /\ dict_get "price" (req_params r) = Some (VFloat (FDec true 25 2))
    /\ dict_get "timeInForce" (req_params r) = Some (VStr "IOC")
    /\ dict_get "stopPrice" (req_params r) = None.
Proof.
  exact (proj1 (prices_are_sent_as_given limit_below_zero limit_below_zero_args
                  ("key", "secret") calm_host empty_world eq_refl eq_refl)
               eq_refl (FDec true 25 2) eq_refl eq_refl).
Defined.
